(** * convert-to-cad: the conversion orchestrator

    A shallow embedding of [supabase/functions/convert-to-cad/index.ts]:
    the request handler that reads a conversion job and its specification
    rows, calls the CAD service, stores the three returned model files and
    records the outcome on the job.

    The handler is straight-line code over three collaborators (the
    database client, [fetch], the storage bucket) inside one [try]/[catch].
    It is embedded as a computation in a state-and-exception monad; the
    state is the content of the collaborators ([World]) together with the
    sequence of calls the handler has made so far ([Effect]).

    The template literals of the source ([${CAD_URL}/convert],
    [step/design_${conversionId}.step], ...) are read as template
    literals. Console output is left out. *)

From stdpp Require Import gmap strings list fin_maps.

Local Open Scope string_scope.
Local Open Scope list_scope.
Local Set Warnings "-register-all".

(** ** Exceptions *)

(** Everything the handler throws or receives as a rejection is an
    Error-like object: a name and a message. *)
Record Exn := { exn_name : string; exn_message : string }.

(** [new Error(msg)] *)
Definition Error (msg : string) : Exn :=
  {| exn_name := "Error"; exn_message := msg |}.

(** [String(err)], that is [Error.prototype.toString]. *)
Definition String_of (err : Exn) : string :=
  if decide (exn_name err = "") then exn_message err
  else if decide (exn_message err = "") then exn_name err
  else exn_name err +:+ ": " +:+ exn_message err.

(** JavaScript truthiness of a string: every string but the empty one. *)
Definition truthy (s : string) : bool := negb (String.eqb s "").

(** ** The monad: state and exceptions

    A computation runs from a state and either returns a value or throws;
    in both cases it leaves a state behind. *)

Inductive Completion (A : Type) :=
| Returns (a : A)
| Throws (err : Exn).
Arguments Returns {A} a.
Arguments Throws {A} err.

Definition M (Σ A : Type) : Type := Σ → Completion A * Σ.

Definition ret {Σ A} (a : A) : M Σ A := λ st, (Returns a, st).

Definition bind {Σ A B} (m : M Σ A) (k : A → M Σ B) : M Σ B :=
  λ st, match m st with
        | (Returns a, st') => k a st'
        | (Throws err, st') => (Throws err, st')
        end.

(** [throw err] *)
Definition throw {Σ A} (err : Exn) : M Σ A := λ st, (Throws err, st).

(** [try { body } catch (err) { handler }] *)
Definition try_catch {Σ A} (body : M Σ A) (handler : Exn → M Σ A) : M Σ A :=
  λ st, match body st with
        | (Returns a, st') => (Returns a, st')
        | (Throws err, st') => handler err st'
        end.

(** Awaiting a promise that has settled. *)
Definition await {Σ A} (settled : Exn + A) : M Σ A :=
  match settled with
  | inl err => throw err
  | inr a => ret a
  end.

Notation "x <- m ;; k" := (bind m (λ x, k))
  (at level 100, m at next level, right associativity).
Notation "m ;;; k" := (bind m (λ _, k))
  (at level 100, right associativity).

(** ** Query results

    A query of the database client resolves to [{ data, error }]; it does
    not reject. *)

Record QueryResult (A : Type) := { data : option A; error : option string }.
Arguments data {A} _.
Arguments error {A} _.

Section Orchestrator.

(** The JavaScript number type and the builtin [Number(v)] (ToNumber)
    belong to the language, not to the repository: they are parameters. *)
Context {number : Type}.

(** ** JavaScript values *)

Inductive JsValue :=
| VUndefined
| VNull
| VBool (b : bool)
| VNumber (n : number)
| VString (s : string)
| VArray (items : list JsValue)
| VObject (fields : list (string * JsValue)).

Variable Number : JsValue → number.

(** Reading an own property of an object literal. *)
Fixpoint assoc (k : string) (fields : list (string * JsValue)) : option JsValue :=
  match fields with
  | [] => None
  | (k', v) :: rest => if String.eqb k k' then Some v else assoc k rest
  end.

(** A request or response body: absent, or the text [JSON.stringify(v)].
    The text is represented by the value it serialises. *)
Inductive Body :=
| NoBody
| JSON_stringify (v : JsValue).

(** [new Blob([part])] *)
Record Blob := { blob_parts : list JsValue }.

(** ** Rows of the three tables *)

(** [cad_conversions]; the row's [id] is its key in the table. *)
Record Job := {
  status : string;
  current_step : Z;
  vectorized_svg_url : option string;
  cad_file_url : option string;
  stl_file_url : option string;
  obj_file_url : option string;
  completed_at : option string;
  error_message : option string;
}.

(** [gemstone_specs] *)
Record GemRow := {
  gem_conversion_id : string;
  shape : JsValue;
  mm_size : JsValue;
  dia_wt : JsValue;
  quantity : JsValue;
  setting_type : JsValue;
}.

(** [metal_specs] *)
Record MetalRow := {
  metal_conversion_id : string;
  color : JsValue;
  karat : JsValue;
  gold_weight : JsValue;
  tone : JsValue;
}.

(** The object literal handed to [.update(...)]: the columns it sets. *)
Record JobPatch := {
  set_status : option string;
  set_current_step : option Z;
  set_cad_file_url : option string;
  set_stl_file_url : option string;
  set_obj_file_url : option string;
  set_completed_at : option string;
  set_error_message : option string;
}.

Definition overwrite {A} (new : option A) (old : A) : A :=
  match new with Some a => a | None => old end.

Definition overwrite_opt {A} (new : option A) (old : option A) : option A :=
  match new with Some a => Some a | None => old end.

Definition apply_patch (p : JobPatch) (j : Job) : Job :=
  {| status := overwrite (set_status p) (status j);
     current_step := overwrite (set_current_step p) (current_step j);
     vectorized_svg_url := vectorized_svg_url j;
     cad_file_url := overwrite_opt (set_cad_file_url p) (cad_file_url j);
     stl_file_url := overwrite_opt (set_stl_file_url p) (stl_file_url j);
     obj_file_url := overwrite_opt (set_obj_file_url p) (obj_file_url j);
     completed_at := overwrite_opt (set_completed_at p) (completed_at j);
     error_message := overwrite_opt (set_error_message p) (error_message j) |}.

(** ** HTTP *)

Record FetchInit := {
  fetch_method : string;
  fetch_headers : list (string * string);
  fetch_body : Body;
  (** [signal: AbortSignal.timeout(ms)] *)
  fetch_timeout_ms : Z;
}.

(** What the handler observes of a [fetch] response: [status] (hence
    [ok]) and the outcome of reading the body with [.text()] and with
    [.json()], each of which either resolves or rejects. *)
Record FetchResponse := {
  fr_status : Z;
  fr_text : Exn + string;
  fr_json : Exn + JsValue;
}.

(** [resp.ok]: the status is in the range 200-299. *)
Definition fr_ok (r : FetchResponse) : bool :=
  bool_decide (200 ≤ fr_status r ≤ 299)%Z.

(** The response the handler returns, as it makes it: the body, and the
    status and headers it gives to the [Response] constructor. *)
Record Response := {
  resp_body : Body;
  resp_status : Z;
  resp_headers : list (string * string);
}.

(** The incoming request: its method and the outcome of [req.json()]
    ([None] when it rejects), typed as the source declares the body. *)
Record RequestBody := { conversionId : string; userId : string }.

Record Request := {
  req_method : string;
  req_json : option RequestBody;
}.

(** ** Storage *)

Record UploadOptions := { contentType : string; upsert : bool }.

Record StoredObject := { obj_content : Blob; obj_content_type : string }.

(** ** The collaborators' state and the calls made to them *)

Record World := {
  cad_conversions : gmap string Job;
  gemstone_specs : list GemRow;
  metal_specs : list MetalRow;
  (** the bucket [cad-files], by object path *)
  cad_files : gmap string StoredObject;
}.

Inductive Effect :=
| DbSelect (table column value : string) (single : bool)
| DbUpdate (table : string) (patch : JobPatch) (column value : string)
| HttpFetch (url : string) (init : FetchInit)
| StorageUpload (bucket path : string) (content : Blob) (opts : UploadOptions)
| StoragePublicUrl (bucket path : string).

(** The part of the environment that is fixed during one invocation:
    configuration, the clock, and how the collaborators answer. *)
Record Env := {
  (** [Deno.env.get("MASK_SERVICE_URL")]; read, never used *)
  MASK_URL : string;
  (** [Deno.env.get("CAD_SERVICE_URL")] *)
  CAD_URL : string;
  (** [new Date().toISOString()] *)
  now : string;
  (** the CAD service, and the network in front of it: a [fetch] either
      rejects (network failure, timeout) or resolves to a response *)
  cad_service : string → FetchInit → Exn + FetchResponse;
  (** a select on this table comes back with an error and no data *)
  query_fails : string → bool;
  (** the bucket refuses the upload to this path *)
  upload_fails : string → bool;
  (** the public URL the bucket assigns to a path *)
  publicUrl : string → string;
}.

(** ** The state of a run: the collaborators and the calls made so far *)

Record St := { world : World; effects : list Effect }.

Definition get_world : M St World := λ st, (Returns (world st), st).

Definition set_world (w : World) : M St unit :=
  λ st, (Returns (), {| world := w; effects := effects st |}).

Definition perform (e : Effect) : M St unit :=
  λ st, (Returns (), {| world := world st; effects := effects st ++ [e] |}).

(** ** The database client *)


(** [.single()]: the row when exactly one matches, an error otherwise. *)
Definition single {A} (rows : list A) : QueryResult A :=
  match rows with
  | [row] => {| data := Some row; error := None |}
  | _ => {| data := None; error := Some "PGRST116" |}
  end.

Definition unavailable {A} : QueryResult A :=
  {| data := None; error := Some "unavailable" |}.

(** What a select finds in a given state of the tables. *)
Definition find_conversion (env : Env) (w : World) (id : string) : QueryResult Job :=
  if query_fails env "cad_conversions" then unavailable
  else single (option_list (cad_conversions w !! id)).

Definition find_gemstone_specs (env : Env) (w : World) (id : string)
  : QueryResult (list GemRow) :=
  if query_fails env "gemstone_specs" then unavailable
  else {| data := Some (filter (λ g, gem_conversion_id g = id) (gemstone_specs w));
          error := None |}.

Definition find_metal_specs (env : Env) (w : World) (id : string)
  : QueryResult MetalRow :=
  if query_fails env "metal_specs" then unavailable
  else single (filter (λ m, metal_conversion_id m = id) (metal_specs w)).

(** [from("cad_conversions").select("*").eq("id", id).single()] *)
Definition select_conversion (env : Env) (id : string) : M St (QueryResult Job) :=
  perform (DbSelect "cad_conversions" "id" id true) ;;;
  w <- get_world ;;
  ret (find_conversion env w id).

(** [from("gemstone_specs").select("*").eq("conversion_id", id)] *)
Definition select_gemstone_specs (env : Env) (id : string)
  : M St (QueryResult (list GemRow)) :=
  perform (DbSelect "gemstone_specs" "conversion_id" id false) ;;;
  w <- get_world ;;
  ret (find_gemstone_specs env w id).

(** [from("metal_specs").select("*").eq("conversion_id", id).single()] *)
Definition select_metal_specs (env : Env) (id : string) : M St (QueryResult MetalRow) :=
  perform (DbSelect "metal_specs" "conversion_id" id true) ;;;
  w <- get_world ;;
  ret (find_metal_specs env w id).

Definition update_row (patch : JobPatch) (id : string) (w : World) : World :=
  {| cad_conversions :=
       match cad_conversions w !! id with
       | Some j => <[id := apply_patch patch j]> (cad_conversions w)
       | None => cad_conversions w
       end;
     gemstone_specs := gemstone_specs w;
     metal_specs := metal_specs w;
     cad_files := cad_files w |}.

(** [from("cad_conversions").update(patch).eq("id", id)]: the matching
    row, if there is one, takes the patch. The source awaits the call and
    drops its result. *)
Definition update_conversion (patch : JobPatch) (id : string) : M St unit :=
  perform (DbUpdate "cad_conversions" patch "id" id) ;;;
  w <- get_world ;;
  set_world (update_row patch id w).

(** ** [fetch] and the response body *)

Definition fetch (env : Env) (url : string) (init : FetchInit) : M St FetchResponse :=
  perform (HttpFetch url init) ;;;
  await (cad_service env url init).

(** [v.key]: a [TypeError] on [null] and [undefined], the property of an
    object, [undefined] for a key that a value does not have. *)
Definition get_property (v : JsValue) (key : string) : M St JsValue :=
  match v with
  | VUndefined =>
      throw {| exn_name := "TypeError";
               exn_message := "Cannot read properties of undefined (reading '"
                              +:+ key +:+ "')" |}
  | VNull =>
      throw {| exn_name := "TypeError";
               exn_message := "Cannot read properties of null (reading '"
                              +:+ key +:+ "')" |}
  | VObject fields => ret (default VUndefined (assoc key fields))
  | _ => ret VUndefined
  end.

(** ** The storage bucket [cad-files] *)

Definition store_object (path : string) (o : StoredObject) (w : World) : World :=
  {| cad_conversions := cad_conversions w;
     gemstone_specs := gemstone_specs w;
     metal_specs := metal_specs w;
     cad_files := <[path := o]> (cad_files w) |}.

(** What [bucket.upload(path, content, opts)] does to the bucket, and the
    [error] it resolves to: an error and no change when the bucket
    refuses, or when the path is taken and [upsert] is off; otherwise the
    object is written at the path, replacing the one that was there. *)
Definition upload_result (env : Env) (path : string) (content : Blob)
    (opts : UploadOptions) (w : World) : option string * World :=
  if upload_fails env path then (Some "upload failed", w)
  else if bool_decide (is_Some (cad_files w !! path)) && negb (upsert opts)
  then (Some "The resource already exists", w)
  else (None, store_object path
                {| obj_content := content; obj_content_type := contentType opts |} w).

(** [bucket.upload(path, content, opts)], resolving to its [error]. *)
Definition upload (env : Env) (path : string) (content : Blob) (opts : UploadOptions)
  : M St (option string) :=
  perform (StorageUpload "cad-files" path content opts) ;;;
  w <- get_world ;;
  let '(err, w') := upload_result env path content opts w in
  set_world w' ;;;
  ret err.

(** [bucket.getPublicUrl(path).data.publicUrl] *)
Definition getPublicUrl (env : Env) (path : string) : M St string :=
  perform (StoragePublicUrl "cad-files" path) ;;;
  ret (publicUrl env path).

(** ** The handler *)

Definition CORS : list (string * string) :=
  [ ("Access-Control-Allow-Origin", "*");
    ("Access-Control-Allow-Headers",
     "authorization, x-client-info, apikey, content-type");
    ("Access-Control-Allow-Methods", "POST, OPTIONS") ].

(** [{ ...CORS, "Content-Type": "application/json" }] *)
Definition CORS_json : list (string * string) :=
  CORS ++ [ ("Content-Type", "application/json") ].

(** [if (convErr || !conv) throw new Error("Conversion not found")] *)
Definition require_conversion (q : QueryResult Job) : M St Job :=
  match error q, data q with
  | None, Some conv => ret conv
  | _, _ => throw (Error "Conversion not found")
  end.

(** [const svgUrl = conv.vectorized_svg_url;
     if (!svgUrl) throw new Error("No vector SVG URL on conversion")] *)
Definition require_svg_url (conv : Job) : M St string :=
  match vectorized_svg_url conv with
  | Some svgUrl =>
      if truthy svgUrl then ret svgUrl
      else throw (Error "No vector SVG URL on conversion")
  | None => throw (Error "No vector SVG URL on conversion")
  end.

(** [if (!metalSpecs) throw new Error("Missing metal specs")] *)
Definition require_metal_specs (q : QueryResult MetalRow) : M St MetalRow :=
  match data q with
  | Some metalSpecs => ret metalSpecs
  | None => throw (Error "Missing metal specs")
  end.

(** The object built for one gemstone row. *)
Definition gemstone_payload (g : GemRow) : JsValue :=
  VObject [ ("shape", shape g);
            ("size_mm", VNumber (Number (mm_size g)));
            ("dia_wt", VNumber (Number (dia_wt g)));
            ("quantity", quantity g);
            ("setting_type", setting_type g) ].

Definition metal_payload (metalSpecs : MetalRow) : JsValue :=
  VObject [ ("type", color metalSpecs);
            ("karat", karat metalSpecs);
            ("weight_grams", VNumber (Number (gold_weight metalSpecs)));
            ("tone", tone metalSpecs) ].

(** [cadReq]; [gemSpecs?.map(...) || []] is the mapped array, or the
    empty array when [gemSpecs] is [null]. *)
Definition cadReq (svgUrl conversionId : string)
    (gemSpecs : option (list GemRow)) (metalSpecs : MetalRow) : JsValue :=
  VObject [ ("svg_url", VString svgUrl);
            ("design_id", VString conversionId);
            ("gemstone_specs",
             VArray (match gemSpecs with
                     | Some rows => map gemstone_payload rows
                     | None => []
                     end));
            ("metal_specs", metal_payload metalSpecs) ].

Definition cad_fetch_init (payload : JsValue) : FetchInit :=
  {| fetch_method := "POST";
     fetch_headers := [ ("Content-Type", "application/json") ];
     fetch_body := JSON_stringify payload;
     fetch_timeout_ms := 300000 |}.

(** [if (!cadResp.ok) { const txt = await cadResp.text();
                        throw new Error("CAD service error: " + txt) }] *)
Definition require_ok (cadResp : FetchResponse) : M St unit :=
  if fr_ok cadResp then ret ()
  else txt <- await (fr_text cadResp) ;;
       throw (Error ("CAD service error: " +:+ txt)).

Definition step_path (conversionId : string) : string :=
  "step/design_" +:+ conversionId +:+ ".step".
Definition stl_path (conversionId : string) : string :=
  "stl/design_" +:+ conversionId +:+ ".stl".
Definition obj_path (conversionId : string) : string :=
  "obj/design_" +:+ conversionId +:+ ".obj".

Definition generating_patch : JobPatch :=
  {| set_status := Some "generating_cad"; set_current_step := Some 3%Z;
     set_cad_file_url := None; set_stl_file_url := None;
     set_obj_file_url := None; set_completed_at := None;
     set_error_message := None |}.

Definition completed_patch (stepUrl stlUrl objUrl at_ : string) : JobPatch :=
  {| set_status := Some "completed"; set_current_step := Some 4%Z;
     set_cad_file_url := Some stepUrl; set_stl_file_url := Some stlUrl;
     set_obj_file_url := Some objUrl; set_completed_at := Some at_;
     set_error_message := None |}.

Definition failed_patch (err : Exn) : JobPatch :=
  {| set_status := Some "failed"; set_current_step := Some 0%Z;
     set_cad_file_url := None; set_stl_file_url := None;
     set_obj_file_url := None; set_completed_at := None;
     set_error_message := Some (String_of err) |}.

Definition success_response (conversionId : string) : Response :=
  {| resp_body := JSON_stringify
       (VObject [ ("success", VBool true); ("conversionId", VString conversionId) ]);
     resp_status := 200;
     resp_headers := CORS |}.

Definition failure_response (err : Exn) : Response :=
  {| resp_body := JSON_stringify
       (VObject [ ("success", VBool false); ("error", VString (String_of err)) ]);
     resp_status := 500;
     resp_headers := CORS_json |}.

Definition error_response (code : Z) (msg : string) : Response :=
  {| resp_body := JSON_stringify (VObject [ ("error", VString msg) ]);
     resp_status := code;
     resp_headers := CORS_json |}.

(** The body of the [try] block, steps 1 to 8. *)
Definition protected_region (env : Env) (conversionId : string) : M St Response :=
  (* 1) the conversion record *)
  q <- select_conversion env conversionId ;;
  conv <- require_conversion q ;;
  (* 2) the vector SVG URL *)
  svgUrl <- require_svg_url conv ;;
  (* 3) status generating_cad *)
  update_conversion generating_patch conversionId ;;;
  (* 4) the specs *)
  gems <- select_gemstone_specs env conversionId ;;
  let gemSpecs := data gems in
  metal <- select_metal_specs env conversionId ;;
  metalSpecs <- require_metal_specs metal ;;
  (* 5) the CAD service *)
  cadResp <- fetch env (CAD_URL env +:+ "/convert")
               (cad_fetch_init (cadReq svgUrl conversionId gemSpecs metalSpecs)) ;;
  require_ok cadResp ;;;
  cadJson <- await (fr_json cadResp) ;;
  (* 6) the three uploads *)
  step_file <- get_property cadJson "step_file" ;;
  upload env (step_path conversionId) {| blob_parts := [step_file] |}
    {| contentType := "model/step"; upsert := true |} ;;;
  stl_file <- get_property cadJson "stl_file" ;;
  upload env (stl_path conversionId) {| blob_parts := [stl_file] |}
    {| contentType := "model/stl"; upsert := true |} ;;;
  obj_file <- get_property cadJson "obj_file" ;;
  upload env (obj_path conversionId) {| blob_parts := [obj_file] |}
    {| contentType := "model/obj"; upsert := true |} ;;;
  (* 7) the public URLs *)
  stepUrl <- getPublicUrl env (step_path conversionId) ;;
  stlUrl <- getPublicUrl env (stl_path conversionId) ;;
  objUrl <- getPublicUrl env (obj_path conversionId) ;;
  (* 8) finalize *)
  update_conversion (completed_patch stepUrl stlUrl objUrl (now env)) conversionId ;;;
  ret (success_response conversionId).

(** The [try] block from the answer of the CAD service on: the end of
    step 5 and steps 6 to 8, as in [protected_region]. *)
Definition after_response (env : Env) (conversionId : string)
    (cadResp : FetchResponse) : M St Response :=
  require_ok cadResp ;;;
  cadJson <- await (fr_json cadResp) ;;
  step_file <- get_property cadJson "step_file" ;;
  upload env (step_path conversionId) {| blob_parts := [step_file] |}
    {| contentType := "model/step"; upsert := true |} ;;;
  stl_file <- get_property cadJson "stl_file" ;;
  upload env (stl_path conversionId) {| blob_parts := [stl_file] |}
    {| contentType := "model/stl"; upsert := true |} ;;;
  obj_file <- get_property cadJson "obj_file" ;;
  upload env (obj_path conversionId) {| blob_parts := [obj_file] |}
    {| contentType := "model/obj"; upsert := true |} ;;;
  stepUrl <- getPublicUrl env (step_path conversionId) ;;
  stlUrl <- getPublicUrl env (stl_path conversionId) ;;
  objUrl <- getPublicUrl env (obj_path conversionId) ;;
  update_conversion (completed_patch stepUrl stlUrl objUrl (now env)) conversionId ;;;
  ret (success_response conversionId).

(** The [catch] block. *)
Definition on_failure (conversionId : string) (err : Exn) : M St Response :=
  (if truthy conversionId
   then update_conversion (failed_patch err) conversionId
   else ret ()) ;;;
  ret (failure_response err).

(** The function handed to [serve]. *)
Definition handler (env : Env) (req : Request) : M St Response :=
  if String.eqb (req_method req) "OPTIONS"
  then ret {| resp_body := NoBody; resp_status := 204; resp_headers := CORS |}
  else if negb (String.eqb (req_method req) "POST")
  then ret (error_response 405 "Method Not Allowed")
  else match req_json req with
       | None => ret (error_response 400 "Invalid JSON")
       | Some body =>
           let '(Build_RequestBody conversionId userId) := body in
           try_catch (protected_region env conversionId) (on_failure conversionId)
       end.

(** One invocation, from a given state of the collaborators: what the
    handler answers, the state it leaves, the calls it made in order. *)
Definition invoke (env : Env) (req : Request) (w : World) : Completion Response * St :=
  handler env req {| world := w; effects := [] |}.

(** * Vocabulary of the properties *)

(** [emits P m]: from every state, [m] only appends to the sequence of
    calls, and every call it appends satisfies [P]. *)
Definition emits {A} (P : Effect → Prop) (m : M St A) : Prop :=
  ∀ st, ∃ l, effects (m st).2 = effects st ++ l ∧ Forall P l.

(** The calls the [try] block can make for a conversion id. *)
Definition region_call (env : Env) (conversionId : string) (e : Effect) : Prop :=
  match e with
  | DbSelect table column value _ =>
      value = conversionId ∧
      (table, column) ∈ [ ("cad_conversions", "id");
                          ("gemstone_specs", "conversion_id");
                          ("metal_specs", "conversion_id") ]
  | DbUpdate table patch column value =>
      table = "cad_conversions" ∧ column = "id" ∧ value = conversionId ∧
      (patch = generating_patch ∨
       ∃ stepUrl stlUrl objUrl at_, patch = completed_patch stepUrl stlUrl objUrl at_)
  | HttpFetch url init =>
      url = CAD_URL env +:+ "/convert" ∧
      ∃ svgUrl gemSpecs metalSpecs,
        init = cad_fetch_init (cadReq svgUrl conversionId gemSpecs metalSpecs)
  | StorageUpload bucket path _ opts =>
      bucket = "cad-files" ∧ upsert opts = true ∧
      (path, contentType opts) ∈ [ (step_path conversionId, "model/step");
                                   (stl_path conversionId, "model/stl");
                                   (obj_path conversionId, "model/obj") ]
  | StoragePublicUrl bucket path =>
      bucket = "cad-files" ∧
      path ∈ [ step_path conversionId; stl_path conversionId; obj_path conversionId ]
  end.

(** The object an upload leaves in the bucket. *)
Definition stored (content_type : string) (part : JsValue) : StoredObject :=
  {| obj_content := {| blob_parts := [part] |}; obj_content_type := content_type |}.

(** The collaborators after a conversion that went through: the job was
    set to generating, the three files were stored, the job was set to
    completed. *)
Definition converted_world (env : Env) (conversionId : string)
    (step_file stl_file obj_file : JsValue) (w : World) : World :=
  update_row
    (completed_patch (publicUrl env (step_path conversionId))
                     (publicUrl env (stl_path conversionId))
                     (publicUrl env (obj_path conversionId)) (now env))
    conversionId
    (store_object (obj_path conversionId) (stored "model/obj" obj_file)
      (store_object (stl_path conversionId) (stored "model/stl" stl_file)
        (store_object (step_path conversionId) (stored "model/step" step_file)
          (update_row generating_patch conversionId w)))).

(** The calls made up to and including the call of the CAD service. *)
Definition calls_until_fetch (env : Env) (conversionId : string) (payload : JsValue)
  : list Effect :=
  [ DbSelect "cad_conversions" "id" conversionId true;
    DbUpdate "cad_conversions" generating_patch "id" conversionId;
    DbSelect "gemstone_specs" "conversion_id" conversionId false;
    DbSelect "metal_specs" "conversion_id" conversionId true;
    HttpFetch (CAD_URL env +:+ "/convert") (cad_fetch_init payload) ].

(** The calls made after the CAD service has answered with the files. *)
Definition calls_after_fetch (env : Env) (conversionId : string)
    (step_file stl_file obj_file : JsValue) : list Effect :=
  [ StorageUpload "cad-files" (step_path conversionId) {| blob_parts := [step_file] |}
      {| contentType := "model/step"; upsert := true |};
    StorageUpload "cad-files" (stl_path conversionId) {| blob_parts := [stl_file] |}
      {| contentType := "model/stl"; upsert := true |};
    StorageUpload "cad-files" (obj_path conversionId) {| blob_parts := [obj_file] |}
      {| contentType := "model/obj"; upsert := true |};
    StoragePublicUrl "cad-files" (step_path conversionId);
    StoragePublicUrl "cad-files" (stl_path conversionId);
    StoragePublicUrl "cad-files" (obj_path conversionId);
    DbUpdate "cad_conversions"
      (completed_patch (publicUrl env (step_path conversionId))
                       (publicUrl env (stl_path conversionId))
                       (publicUrl env (obj_path conversionId)) (now env))
      "id" conversionId ].

(** The conversion id names a row of the job table, and the lookup
    returns it. *)
Definition identifies_job (env : Env) (w : World) (id : string) (job : Job) : Prop :=
  query_fails env "cad_conversions" = false ∧ cad_conversions w !! id = Some job.

(** The job has exactly one metal-spec row, and the lookup returns it. *)
Definition has_one_metal_row (env : Env) (w : World) (id : string)
    (metalSpecs : MetalRow) : Prop :=
  query_fails env "metal_specs" = false ∧
  filter (λ m, metal_conversion_id m = id) (metal_specs w) = [metalSpecs].

(** The payload of the external call as the contract words it:
    [{svg_url, design_id, gemstone_specs: [{shape, size_mm, dia_wt,
    quantity, setting_type}], metal_specs: {type, karat, weight_grams,
    tone}}], where [size_mm], [dia_wt] and [weight_grams] are numbers. *)
Definition is_gemstone_payload (v : JsValue) : Prop :=
  ∃ shape_ size_mm dia_wt_ quantity_ setting_type_,
    v = VObject [ ("shape", shape_); ("size_mm", VNumber size_mm);
                  ("dia_wt", VNumber dia_wt_); ("quantity", quantity_);
                  ("setting_type", setting_type_) ].

Definition is_cad_payload (conversionId : string) (v : JsValue) : Prop :=
  ∃ svg_url gems type_ karat_ weight_grams tone_,
    v = VObject [ ("svg_url", VString svg_url);
                  ("design_id", VString conversionId);
                  ("gemstone_specs", VArray gems);
                  ("metal_specs",
                   VObject [ ("type", type_); ("karat", karat_);
                             ("weight_grams", VNumber weight_grams);
                             ("tone", tone_) ]) ] ∧
    Forall is_gemstone_payload gems.

(** The same environment at another time. *)
Definition at_time (t : string) (env : Env) : Env :=
  {| MASK_URL := MASK_URL env; CAD_URL := CAD_URL env; now := t;
     cad_service := cad_service env;
     query_fails := query_fails env; upload_fails := upload_fails env;
     publicUrl := publicUrl env |}.

(** A write to the job table that sets [status] to ["failed"]. *)
Definition marks_failed (e : Effect) : bool :=
  match e with
  | DbUpdate _ patch _ _ => bool_decide (set_status patch = Some "failed")
  | _ => false
  end.

Definition is_fetch (e : Effect) : bool :=
  match e with HttpFetch _ _ => true | _ => false end.

Definition is_upload (e : Effect) : bool :=
  match e with StorageUpload _ _ _ _ => true | _ => false end.

(** ** Vocabulary of the further properties *)

(** [v.key] for a value on which the access does not throw. *)
Definition property_of (v : JsValue) (key : string) : JsValue :=
  match v with
  | VObject fields => default VUndefined (assoc key fields)
  | _ => VUndefined
  end.

(** The bucket side of the collaborators after the three uploads of a
    conversion, each with the outcome the bucket gives it. *)
Definition uploaded (env : Env) (conversionId : string)
    (step_file stl_file obj_file : JsValue) (w : World) : World :=
  (upload_result env (obj_path conversionId) {| blob_parts := [obj_file] |}
     {| contentType := "model/obj"; upsert := true |}
     (upload_result env (stl_path conversionId) {| blob_parts := [stl_file] |}
        {| contentType := "model/stl"; upsert := true |}
        (upload_result env (step_path conversionId) {| blob_parts := [step_file] |}
           {| contentType := "model/step"; upsert := true |} w).2).2).2.

(** [touches_only id w w']: from [w] to [w'] the two spec tables are the
    same, the job table has the same ids, only the row [id] may differ
    and no row changes its SVG URL, and the bucket differs at most at
    the three paths of [id], where objects may have been written. *)
Definition touches_only (id : string) (w w' : World) : Prop :=
  gemstone_specs w' = gemstone_specs w ∧
  metal_specs w' = metal_specs w ∧
  dom (cad_conversions w') = dom (cad_conversions w) ∧
  (∀ id', id' ≠ id → cad_conversions w' !! id' = cad_conversions w !! id') ∧
  (∀ id', vectorized_svg_url <$> cad_conversions w' !! id' =
          vectorized_svg_url <$> cad_conversions w !! id') ∧
  (∀ path, path ≠ step_path id → path ≠ stl_path id → path ≠ obj_path id →
           cad_files w' !! path = cad_files w !! path) ∧
  dom (cad_files w) ⊆ dom (cad_files w').

(** [TypeError] of reading a property of [null]. *)
Definition null_property_error (key : string) : Exn :=
  {| exn_name := "TypeError";
     exn_message := "Cannot read properties of null (reading '" +:+ key +:+ "')" |}.

(** The collaborators after a [try] block that ran to its end on the
    answer [cadJson]. *)
Definition finished_world (env : Env) (conversionId : string) (cadJson : JsValue)
    (w : World) : World :=
  update_row
    (completed_patch (publicUrl env (step_path conversionId))
                     (publicUrl env (stl_path conversionId))
                     (publicUrl env (obj_path conversionId)) (now env))
    conversionId
    (uploaded env conversionId
       (property_of cadJson "step_file") (property_of cadJson "stl_file")
       (property_of cadJson "obj_file")
       (update_row generating_patch conversionId w)).

(** The calls of a [try] block that ran to its end. *)
Definition finished_calls (env : Env) (conversionId : string)
    (payload cadJson : JsValue) : list Effect :=
  calls_until_fetch env conversionId payload ++
  calls_after_fetch env conversionId
    (property_of cadJson "step_file") (property_of cadJson "stl_file")
    (property_of cadJson "obj_file").

End Orchestrator.

(** * A scenario

    The example of the specification: job [abc123] with a vector SVG URL,
    one metal-spec row, no gemstone row, and a CAD service that returns
    the three files. Numbers are written as their decimal text, and
    [Number] is given on the values the scenario uses. *)

Module Scenario.

Definition num : Type := string.

Definition Number (v : @JsValue num) : num :=
  match v with
  | VNumber n => n
  | VString s => s
  | _ => "NaN"
  end.

Definition files : list (string * @JsValue num) :=
  [ ("step_file", VString "ISO-10303-21;");
    ("stl_file", VString "solid design");
    ("obj_file", VString "o design") ].

Definition answer : @FetchResponse num :=
  {| fr_status := 200; fr_text := inr "{...}"; fr_json := inr (VObject files) |}.

Definition refusal : @FetchResponse num :=
  {| fr_status := 500;
     fr_text := inr "mesh generation failed";
     fr_json := inl {| exn_name := "SyntaxError"; exn_message := "Unexpected token" |} |}.

Definition timed_out : Exn :=
  {| exn_name := "TimeoutError"; exn_message := "Signal timed out." |}.

Definition env : @Env num :=
  {| MASK_URL := "https://mask.example";
     CAD_URL := "https://cad.example";
     now := "2024-05-01T12:00:00.000Z";
     cad_service := λ _ _, inr answer;
     query_fails := λ _, false;
     upload_fails := λ _, false;
     publicUrl := λ path, "https://store.example/cad-files/" +:+ path |}.

(** The same, with a CAD service that answers 500. *)
Definition env_refusing : @Env num :=
  {| MASK_URL := "https://mask.example";
     CAD_URL := "https://cad.example";
     now := "2024-05-01T12:00:00.000Z";
     cad_service := λ _ _, inr refusal;
     query_fails := λ _, false;
     upload_fails := λ _, false;
     publicUrl := λ path, "https://store.example/cad-files/" +:+ path |}.

(** The same, with a CAD service that does not answer in time. *)
Definition env_timing_out : @Env num :=
  {| MASK_URL := "https://mask.example";
     CAD_URL := "https://cad.example";
     now := "2024-05-01T12:00:00.000Z";
     cad_service := λ _ _, inl timed_out;
     query_fails := λ _, false;
     upload_fails := λ _, false;
     publicUrl := λ path, "https://store.example/cad-files/" +:+ path |}.

Definition job : Job :=
  {| status := "pending"; current_step := 2;
     vectorized_svg_url := Some "https://x/vec.svg";
     cad_file_url := None; stl_file_url := None; obj_file_url := None;
     completed_at := None; error_message := None |}.

Definition metal (id : string) : @MetalRow num :=
  {| metal_conversion_id := id;
     color := VString "yellow"; karat := VNumber "18";
     gold_weight := VString "5.2"; tone := VString "warm" |}.

Definition tables : @World num :=
  {| cad_conversions := {[ "abc123" := job ]};
     gemstone_specs := [];
     metal_specs := [ metal "abc123" ];
     cad_files := ∅ |}.

(** The job without its metal-spec row. *)
Definition tables_without_metal : @World num :=
  {| cad_conversions := {[ "abc123" := job ]};
     gemstone_specs := [];
     metal_specs := [];
     cad_files := ∅ |}.

(** No job at all. *)
Definition no_tables : @World num :=
  {| cad_conversions := ∅; gemstone_specs := []; metal_specs := []; cad_files := ∅ |}.

(** A job stored under the empty id, with and without its metal row. *)
Definition tables_empty_id : @World num :=
  {| cad_conversions := {[ "" := job ]};
     gemstone_specs := [];
     metal_specs := [ metal "" ];
     cad_files := ∅ |}.

Definition tables_empty_id_without_metal : @World num :=
  {| cad_conversions := {[ "" := job ]};
     gemstone_specs := [];
     metal_specs := [];
     cad_files := ∅ |}.

Definition request : Request :=
  {| req_method := "POST";
     req_json := Some {| conversionId := "abc123"; userId := "u1" |} |}.

Definition request_empty_id : Request :=
  {| req_method := "POST";
     req_json := Some {| conversionId := ""; userId := "u1" |} |}.

Definition request_malformed : Request :=
  {| req_method := "POST"; req_json := None |}.

(** A bucket that refuses every upload. *)
Definition env_bucket_refusing : @Env num :=
  {| MASK_URL := "https://mask.example";
     CAD_URL := "https://cad.example";
     now := "2024-05-01T12:00:00.000Z";
     cad_service := λ _ _, inr answer;
     query_fails := λ _, false;
     upload_fails := λ _, true;
     publicUrl := λ path, "https://store.example/cad-files/" +:+ path |}.

(** A CAD service that answers 200 with the JSON text [null], or with
    the empty object. *)
Definition answer_null : @FetchResponse num :=
  {| fr_status := 200; fr_text := inr "null"; fr_json := inr VNull |}.

Definition answer_empty : @FetchResponse num :=
  {| fr_status := 200; fr_text := inr "{}"; fr_json := inr (VObject []) |}.

Definition env_answering (r : @FetchResponse num) : @Env num :=
  {| MASK_URL := "https://mask.example";
     CAD_URL := "https://cad.example";
     now := "2024-05-01T12:00:00.000Z";
     cad_service := λ _ _, inr r;
     query_fails := λ _, false;
     upload_fails := λ _, false;
     publicUrl := λ path, "https://store.example/cad-files/" +:+ path |}.

(** The job before its vectorization: no SVG URL yet. *)
Definition job_without_svg : Job :=
  {| status := "pending"; current_step := 1;
     vectorized_svg_url := None;
     cad_file_url := None; stl_file_url := None; obj_file_url := None;
     completed_at := None; error_message := None |}.

Definition tables_without_svg : @World num :=
  {| cad_conversions := {[ "abc123" := job_without_svg ]};
     gemstone_specs := [];
     metal_specs := [ metal "abc123" ];
     cad_files := ∅ |}.

(** The tables with a second, completed job and its files. *)
Definition other_file : @StoredObject num :=
  {| obj_content := {| blob_parts := [VString "earlier"] |};
     obj_content_type := "model/step" |}.

Definition tables_with_other : @World num :=
  {| cad_conversions := {[ "abc123" := job; "abc12" := job ]};
     gemstone_specs := [];
     metal_specs := [ metal "abc123"; metal "abc12" ];
     cad_files := {[ "step/design_abc12.step" := other_file ]} |}.

Definition request_options : Request :=
  {| req_method := "OPTIONS"; req_json := None |}.

Definition request_get : Request :=
  {| req_method := "GET";
     req_json := Some {| conversionId := "abc123"; userId := "u1" |} |}.

(** A database whose lookup of the job comes back with an error. *)
Definition env_lookup_failing : @Env num :=
  {| MASK_URL := "https://mask.example";
     CAD_URL := "https://cad.example";
     now := "2024-05-01T12:00:00.000Z";
     cad_service := λ _ _, inr answer;
     query_fails := λ table, String.eqb table "cad_conversions";
     upload_fails := λ _, false;
     publicUrl := λ path, "https://store.example/cad-files/" +:+ path |}.

End Scenario.

(** * Reasoning about runs *)

Section Runs.

Context {number : Type} (Number : @JsValue number → number).

Local Abbreviation State := (@St number).

Implicit Types (env : @Env number) (w : @World number) (st : @St number).
Implicit Types (l : list (@Effect number)) (e : @Effect number).
Implicit Types (P : @Effect number → Prop).

(** ** Running one call *)

Lemma run_bind {A B} (m : M State A) (k : A → M State B) st :
  (x <- m ;; k x) st =
  match m st with
  | (Returns a, st') => k a st'
  | (Throws err, st') => (Throws err, st')
  end.
Proof. reflexivity. Qed.

Lemma run_select_conversion env id w l :
  select_conversion env id {| world := w; effects := l |} =
  (Returns (find_conversion env w id),
   {| world := w; effects := l ++ [DbSelect "cad_conversions" "id" id true] |}).
Proof. reflexivity. Qed.

Lemma run_select_gemstone_specs env id w l :
  select_gemstone_specs env id {| world := w; effects := l |} =
  (Returns (find_gemstone_specs env w id),
   {| world := w;
      effects := l ++ [DbSelect "gemstone_specs" "conversion_id" id false] |}).
Proof. reflexivity. Qed.

Lemma run_select_metal_specs env id w l :
  select_metal_specs env id {| world := w; effects := l |} =
  (Returns (find_metal_specs env w id),
   {| world := w;
      effects := l ++ [DbSelect "metal_specs" "conversion_id" id true] |}).
Proof. reflexivity. Qed.

Lemma run_update_conversion patch id w l :
  update_conversion patch id {| world := w; effects := l |} =
  (Returns (),
   {| world := update_row patch id w;
      effects := l ++ [DbUpdate "cad_conversions" patch "id" id] |}).
Proof. reflexivity. Qed.

Lemma run_fetch env url init w l :
  fetch env url init {| world := w; effects := l |} =
  await (cad_service env url init)
    {| world := w; effects := l ++ [HttpFetch url init] |}.
Proof. reflexivity. Qed.

Lemma run_upload env path content opts w l :
  upload env path content opts {| world := w; effects := l |} =
  (Returns (upload_result env path content opts w).1,
   {| world := (upload_result env path content opts w).2;
      effects := l ++ [StorageUpload "cad-files" path content opts] |}).
Proof.
  unfold upload, bind, perform, get_world, set_world, ret; simpl.
  by destruct (upload_result env path content opts w).
Qed.

Lemma run_getPublicUrl env path w l :
  getPublicUrl env path {| world := w; effects := l |} =
  (Returns (publicUrl env path),
   {| world := w; effects := l ++ [StoragePublicUrl "cad-files" path] |}).
Proof. reflexivity. Qed.

(** An upload with [upsert: true] that the bucket accepts writes the
    object, whatever was at the path. *)
Lemma upload_result_upsert env path content ct w :
  upload_fails env path = false →
  upload_result env path content {| contentType := ct; upsert := true |} w =
  (None, store_object path {| obj_content := content; obj_content_type := ct |} w).
Proof.
  intros Hok. unfold upload_result. rewrite Hok. simpl.
  by rewrite andb_false_r.
Qed.

(** One step of a run: the first call of a sequence is replaced by its
    result and the rest of the sequence goes on from the new state. *)
Ltac run_step :=
  rewrite run_bind;
  first [ rewrite run_select_conversion
        | rewrite run_select_gemstone_specs
        | rewrite run_select_metal_specs
        | rewrite run_update_conversion
        | rewrite run_fetch
        | rewrite run_upload
        | rewrite run_getPublicUrl
        | idtac ];
  cbv beta iota zeta.

(** ** What a computation emits *)

Lemma emits_ret {A} P (a : A) : emits P (ret a).
Proof. intros st. exists []. by rewrite app_nil_r. Qed.

Lemma emits_throw {A} P err : emits P (throw (A := A) err).
Proof. intros st. exists []. by rewrite app_nil_r. Qed.

Lemma emits_await {A} P (settled : Exn + A) : emits P (await settled).
Proof. destruct settled; [apply emits_throw | apply emits_ret]. Qed.

Lemma emits_get_world P : emits P get_world.
Proof. intros st. exists []. by rewrite app_nil_r. Qed.

Lemma emits_set_world P w : emits P (set_world w).
Proof. intros st. exists []. by rewrite app_nil_r. Qed.

Lemma emits_perform (P : Effect → Prop) e : P e → emits P (perform e).
Proof. intros He st. exists [e]. split; [done | by constructor]. Qed.

Lemma emits_bind {A B} P (m : M State A) (k : A → M State B) :
  emits P m → (∀ a, emits P (k a)) → emits P (x <- m ;; k x).
Proof.
  intros Hm Hk st. rewrite run_bind.
  destruct (Hm st) as (l1 & E1 & F1).
  destruct (m st) as [[a | err] st1]; simpl in *.
  - destruct (Hk a st1) as (l2 & E2 & F2).
    exists (l1 ++ l2). rewrite E2, E1, app_assoc. split; [done |].
    by apply Forall_app.
  - by exists l1.
Qed.

Ltac emits_go :=
  repeat first
    [ apply emits_ret | apply emits_throw | apply emits_await
    | apply emits_get_world | apply emits_set_world
    | apply emits_bind; [| intros ?]
    | apply emits_perform; simpl;
      solve [ reflexivity | intuition (eauto 8 || set_solver) ]
    | case_match ].

Lemma protected_region_emits env conversionId :
  emits (region_call Number env conversionId) (protected_region Number env conversionId).
Proof.
  unfold protected_region, select_conversion, select_gemstone_specs,
    select_metal_specs, update_conversion, fetch, upload, getPublicUrl,
    require_conversion, require_svg_url, require_metal_specs, require_ok,
    get_property.
  emits_go.
Qed.

Lemma region_call_not_failed env conversionId e :
  region_call Number env conversionId e → marks_failed e = false.
Proof.
  destruct e; simpl; try done.
  intros (_ & _ & _ & [-> | (? & ? & ? & ? & ->)]); reflexivity.
Qed.

Lemma no_failed_write_in_region env conversionId l :
  Forall (region_call Number env conversionId) l → filter marks_failed l = [].
Proof.
  induction 1 as [| e l He _ IH]; [done |].
  rewrite filter_cons, IH.
  by rewrite (region_call_not_failed _ _ _ He).
Qed.

(** ** Running the checks of the [try] block *)

Lemma run_require_conversion q job st :
  data q = Some job → error q = None →
  require_conversion q st = (Returns job, st).
Proof. intros Hd He. unfold require_conversion. by rewrite Hd, He. Qed.

Lemma run_require_conversion_missing q st :
  data q = None →
  require_conversion q st = (Throws (Error "Conversion not found"), st).
Proof. intros Hd. unfold require_conversion. rewrite Hd. by destruct (error q). Qed.

Lemma run_require_svg_url job svgUrl st :
  vectorized_svg_url job = Some svgUrl → truthy svgUrl = true →
  require_svg_url job st = (Returns svgUrl, st).
Proof. intros Hu Ht. unfold require_svg_url. by rewrite Hu, Ht. Qed.

Lemma run_require_metal_specs q metalSpecs st :
  data q = Some metalSpecs →
  require_metal_specs q st = (Returns metalSpecs, st).
Proof. intros Hd. unfold require_metal_specs. by rewrite Hd. Qed.

Lemma run_require_metal_specs_missing q st :
  data q = None →
  require_metal_specs q st = (Throws (Error "Missing metal specs"), st).
Proof. intros Hd. unfold require_metal_specs. by rewrite Hd. Qed.

Lemma run_require_ok cadResp st :
  fr_ok cadResp = true → require_ok cadResp st = (Returns (), st).
Proof. intros Hok. unfold require_ok. by rewrite Hok. Qed.

Lemma run_require_ok_not cadResp txt st :
  fr_ok cadResp = false → fr_text cadResp = inr txt →
  require_ok cadResp st = (Throws (Error ("CAD service error: " +:+ txt)), st).
Proof. intros Hok Htxt. unfold require_ok. by rewrite Hok, Htxt. Qed.

Lemma run_get_property_object fields key st :
  get_property (VObject fields) key st =
  (Returns (default VUndefined (assoc key fields)), st).
Proof. reflexivity. Qed.

(** The job table is the only table an update touches. *)
Lemma find_gemstone_specs_update_row env patch id w id' :
  find_gemstone_specs env (update_row patch id w) id' = find_gemstone_specs env w id'.
Proof. reflexivity. Qed.

Lemma find_metal_specs_update_row env patch id w id' :
  find_metal_specs env (update_row patch id w) id' = find_metal_specs env w id'.
Proof. reflexivity. Qed.

(** ** The run up to the call of the CAD service *)

(** With the job found, its SVG URL set and the metal row found, the
    [try] block reaches the call of the CAD service, and goes on from the
    answer with the rest of the block. *)
Lemma run_until_fetch env cid w job svgUrl metalSpecs :
  data (find_conversion env w cid) = Some job →
  error (find_conversion env w cid) = None →
  vectorized_svg_url job = Some svgUrl →
  truthy svgUrl = true →
  data (find_metal_specs env w cid) = Some metalSpecs →
  let payload := cadReq Number svgUrl cid (data (find_gemstone_specs env w cid)) metalSpecs in
  let st5 := {| world := update_row generating_patch cid w;
                effects := calls_until_fetch env cid payload |} in
  protected_region Number env cid {| world := w; effects := [] |} =
  match cad_service env (CAD_URL env +:+ "/convert") (cad_fetch_init payload) with
  | inl err => (Throws err, st5)
  | inr cadResp => after_response env cid cadResp st5
  end.
Proof.
  intros Hjob Herr Hsvg Htruthy Hmetal payload st5.
  unfold protected_region.
  run_step.
  rewrite run_bind, (run_require_conversion _ _ _ Hjob Herr); cbv beta iota.
  rewrite run_bind, (run_require_svg_url _ _ _ Hsvg Htruthy); cbv beta iota.
  do 3 run_step.
  rewrite find_gemstone_specs_update_row, find_metal_specs_update_row.
  rewrite run_bind, (run_require_metal_specs _ _ _ Hmetal); cbv beta iota.
  run_step.
  fold payload. simpl app. fold (calls_until_fetch env cid payload). fold st5.
  by destruct (cad_service _ _ _).
Qed.

(** ** The run from the answer of the CAD service on *)

(** An answer with a 2xx status and a JSON object, and a bucket that
    accepts the three uploads: the files are stored, the URLs resolved,
    the job completed, and the block returns the success response. *)
Lemma run_after_response env cid cadResp fields w l :
  fr_ok cadResp = true →
  fr_json cadResp = inr (VObject fields) →
  upload_fails env (step_path cid) = false →
  upload_fails env (stl_path cid) = false →
  upload_fails env (obj_path cid) = false →
  let step_file := default VUndefined (assoc "step_file" fields) in
  let stl_file := default VUndefined (assoc "stl_file" fields) in
  let obj_file := default VUndefined (assoc "obj_file" fields) in
  after_response env cid cadResp {| world := w; effects := l |} =
  (Returns (success_response cid),
   {| world :=
        update_row
          (completed_patch (publicUrl env (step_path cid)) (publicUrl env (stl_path cid))
                           (publicUrl env (obj_path cid)) (now env)) cid
          (store_object (obj_path cid) (stored "model/obj" obj_file)
            (store_object (stl_path cid) (stored "model/stl" stl_file)
              (store_object (step_path cid) (stored "model/step" step_file) w)));
      effects := l ++ calls_after_fetch env cid step_file stl_file obj_file |}).
Proof.
  intros Hok Hjson Hstep Hstl Hobj step_file stl_file obj_file.
  unfold after_response.
  rewrite run_bind, (run_require_ok _ _ Hok); cbv beta iota.
  rewrite run_bind, Hjson; cbv beta iota. simpl await. unfold ret at 1. cbv beta iota.
  rewrite run_bind, run_get_property_object; cbv beta iota. fold step_file.
  run_step. rewrite (upload_result_upsert _ _ _ _ _ Hstep). simpl fst. simpl snd.
  rewrite run_bind, run_get_property_object; cbv beta iota. fold stl_file.
  run_step. rewrite (upload_result_upsert _ _ _ _ _ Hstl). simpl fst. simpl snd.
  rewrite run_bind, run_get_property_object; cbv beta iota. fold obj_file.
  run_step. rewrite (upload_result_upsert _ _ _ _ _ Hobj). simpl fst. simpl snd.
  do 4 run_step.
  unfold ret, calls_after_fetch, stored.
  by rewrite <- !app_assoc.
Qed.

(** The whole [try] block of a conversion that goes through. *)
Lemma run_conversion env cid w job svgUrl metalSpecs cadResp fields :
  data (find_conversion env w cid) = Some job →
  error (find_conversion env w cid) = None →
  vectorized_svg_url job = Some svgUrl →
  truthy svgUrl = true →
  data (find_metal_specs env w cid) = Some metalSpecs →
  let payload := cadReq Number svgUrl cid (data (find_gemstone_specs env w cid)) metalSpecs in
  cad_service env (CAD_URL env +:+ "/convert") (cad_fetch_init payload) = inr cadResp →
  fr_ok cadResp = true →
  fr_json cadResp = inr (VObject fields) →
  upload_fails env (step_path cid) = false →
  upload_fails env (stl_path cid) = false →
  upload_fails env (obj_path cid) = false →
  let step_file := default VUndefined (assoc "step_file" fields) in
  let stl_file := default VUndefined (assoc "stl_file" fields) in
  let obj_file := default VUndefined (assoc "obj_file" fields) in
  protected_region Number env cid {| world := w; effects := [] |} =
  (Returns (success_response cid),
   {| world := converted_world env cid step_file stl_file obj_file w;
      effects := calls_until_fetch env cid payload ++
                 calls_after_fetch env cid step_file stl_file obj_file |}).
Proof.
  intros Hjob Herr Hsvg Htruthy Hmetal payload Hcad Hok Hjson Hstep Hstl Hobj.
  intros step_file stl_file obj_file.
  rewrite (run_until_fetch _ _ _ _ _ _ Hjob Herr Hsvg Htruthy Hmetal).
  fold payload. rewrite Hcad.
  by rewrite (run_after_response _ _ _ _ _ _ Hok Hjson Hstep Hstl Hobj).
Qed.

(** ** Reading the tables and the bucket *)

Lemma find_conversion_identified env w id job :
  identifies_job env w id job →
  find_conversion env w id = {| data := Some job; error := None |}.
Proof. intros [Hq Hrow]. unfold find_conversion. by rewrite Hq, Hrow. Qed.

Lemma find_conversion_absent env w id :
  cad_conversions w !! id = None → data (find_conversion env w id) = None.
Proof.
  intros Hrow. unfold find_conversion. rewrite Hrow.
  by destruct (query_fails env _).
Qed.

Lemma find_metal_specs_one_row env w id metalSpecs :
  has_one_metal_row env w id metalSpecs →
  find_metal_specs env w id = {| data := Some metalSpecs; error := None |}.
Proof. intros [Hq Hrow]. unfold find_metal_specs. by rewrite Hq, Hrow. Qed.

Lemma lookup_update_row patch id w :
  cad_conversions (update_row patch id w) !! id =
  apply_patch patch <$> cad_conversions w !! id.
Proof.
  unfold update_row; simpl.
  destruct (cad_conversions w !! id) as [j |] eqn:E; simpl.
  - by rewrite lookup_insert_eq.
  - done.
Qed.

Lemma update_row_absent patch id w :
  cad_conversions w !! id = None → update_row patch id w = w.
Proof. intros E. unfold update_row. rewrite E. by destruct w. Qed.

Lemma cad_conversions_store_object path o w :
  cad_conversions (store_object path o w) = cad_conversions w.
Proof. reflexivity. Qed.

Lemma step_path_ne_stl_path id : step_path id ≠ stl_path id.
Proof. unfold step_path, stl_path. intros H. injection H. discriminate. Qed.

Lemma step_path_ne_obj_path id : step_path id ≠ obj_path id.
Proof. unfold step_path, obj_path. intros H. discriminate H. Qed.

Lemma stl_path_ne_obj_path id : stl_path id ≠ obj_path id.
Proof. unfold stl_path, obj_path. intros H. discriminate H. Qed.

(** The bucket after a conversion: the three objects at the three paths,
    everything else as before. *)
Lemma cad_files_converted_world env id step_file stl_file obj_file w :
  cad_files (converted_world env id step_file stl_file obj_file w) =
  <[obj_path id := stored "model/obj" obj_file]>
    (<[stl_path id := stored "model/stl" stl_file]>
      (<[step_path id := stored "model/step" step_file]> (cad_files w))).
Proof. reflexivity. Qed.

Lemma job_converted_world env id step_file stl_file obj_file w :
  cad_conversions (converted_world env id step_file stl_file obj_file w) !! id =
  apply_patch
    (completed_patch (publicUrl env (step_path id)) (publicUrl env (stl_path id))
                     (publicUrl env (obj_path id)) (now env))
    <$> (apply_patch generating_patch <$> cad_conversions w !! id).
Proof.
  unfold converted_world. rewrite lookup_update_row.
  rewrite !cad_conversions_store_object. by rewrite lookup_update_row.
Qed.

(** ** Runs that stop before the call of the CAD service *)

Lemma run_region_no_conversion env cid w :
  data (find_conversion env w cid) = None →
  protected_region Number env cid {| world := w; effects := [] |} =
  (Throws (Error "Conversion not found"),
   {| world := w; effects := [DbSelect "cad_conversions" "id" cid true] |}).
Proof.
  intros Hjob. unfold protected_region. run_step.
  by rewrite run_bind, (run_require_conversion_missing _ _ Hjob).
Qed.

Lemma run_region_query_error env cid w msg :
  error (find_conversion env w cid) = Some msg →
  protected_region Number env cid {| world := w; effects := [] |} =
  (Throws (Error "Conversion not found"),
   {| world := w; effects := [DbSelect "cad_conversions" "id" cid true] |}).
Proof.
  intros Herr. unfold protected_region. run_step.
  rewrite run_bind. unfold require_conversion. by rewrite Herr.
Qed.

Lemma run_region_no_svg_url env cid w job :
  data (find_conversion env w cid) = Some job →
  error (find_conversion env w cid) = None →
  (vectorized_svg_url job = None ∨ vectorized_svg_url job = Some "") →
  protected_region Number env cid {| world := w; effects := [] |} =
  (Throws (Error "No vector SVG URL on conversion"),
   {| world := w; effects := [DbSelect "cad_conversions" "id" cid true] |}).
Proof.
  intros Hjob Herr Hsvg. unfold protected_region. run_step.
  rewrite run_bind, (run_require_conversion _ _ _ Hjob Herr); cbv beta iota.
  rewrite run_bind. unfold require_svg_url. by destruct Hsvg as [-> | ->].
Qed.

Lemma run_region_no_metal_specs env cid w job svgUrl :
  data (find_conversion env w cid) = Some job →
  error (find_conversion env w cid) = None →
  vectorized_svg_url job = Some svgUrl →
  truthy svgUrl = true →
  data (find_metal_specs env w cid) = None →
  protected_region Number env cid {| world := w; effects := [] |} =
  (Throws (Error "Missing metal specs"),
   {| world := update_row generating_patch cid w;
      effects := [ DbSelect "cad_conversions" "id" cid true;
                   DbUpdate "cad_conversions" generating_patch "id" cid;
                   DbSelect "gemstone_specs" "conversion_id" cid false;
                   DbSelect "metal_specs" "conversion_id" cid true ] |}).
Proof.
  intros Hjob Herr Hsvg Htruthy Hmetal. unfold protected_region. run_step.
  rewrite run_bind, (run_require_conversion _ _ _ Hjob Herr); cbv beta iota.
  rewrite run_bind, (run_require_svg_url _ _ _ Hsvg Htruthy); cbv beta iota.
  do 3 run_step.
  rewrite find_metal_specs_update_row.
  by rewrite run_bind, (run_require_metal_specs_missing _ _ Hmetal).
Qed.

Lemma truthy_true s : truthy s = true ↔ s ≠ "".
Proof. unfold truthy. rewrite negb_true_iff. apply String.eqb_neq. Qed.

Lemma after_response_does_not_fetch env cid cadResp :
  emits (λ e, is_fetch e = false) (after_response env cid cadResp).
Proof.
  unfold after_response, update_conversion, upload, getPublicUrl, require_ok,
    get_property.
  emits_go.
Qed.

Lemma cadReq_is_cad_payload svgUrl cid gemSpecs metalSpecs :
  is_cad_payload cid (cadReq Number svgUrl cid gemSpecs metalSpecs).
Proof.
  unfold is_cad_payload, cadReq, metal_payload.
  eexists _, _, _, _, _, _. split; [reflexivity |].
  destruct gemSpecs as [rows |]; [| constructor].
  induction rows as [| g rows IH]; simpl; constructor; [| done].
  unfold is_gemstone_payload, gemstone_payload. by eexists _, _, _, _, _.
Qed.

Lemma fetch_in_calls_until_fetch env cid payload url init :
  HttpFetch url init ∈ calls_until_fetch env cid payload →
  url = CAD_URL env +:+ "/convert" ∧ init = cad_fetch_init payload.
Proof.
  unfold calls_until_fetch. rewrite !elem_of_cons, elem_of_nil.
  intros [H | [H | [H | [H | [H | []]]]]]; try discriminate H.
  by injection H as -> ->.
Qed.

(** ** The frame of the handler *)

Lemma handler_post env req cid uid :
  req_method req = "POST" →
  req_json req = Some {| conversionId := cid; userId := uid |} →
  handler Number env req =
  try_catch (protected_region Number env cid) (on_failure cid).
Proof. intros Hm Hb. unfold handler. by rewrite Hm, Hb. Qed.

Lemma run_on_failure cid err w l :
  on_failure cid err {| world := w; effects := l |} =
  (Returns (failure_response err),
   if truthy cid
   then {| world := update_row (failed_patch err) cid w;
           effects := l ++ [DbUpdate "cad_conversions" (failed_patch err) "id" cid] |}
   else {| world := w; effects := l |}).
Proof. unfold on_failure. by destruct (truthy cid). Qed.

(** The handler never lets an exception escape: every invocation ends
    with a response. *)
Lemma handler_answers env req w :
  ∃ resp st, invoke Number env req w = (Returns resp, st).
Proof.
  unfold invoke, handler.
  destruct (String.eqb _ "OPTIONS"); [by eauto |].
  destruct (negb _); [by eauto |].
  destruct (req_json req) as [[cid uid] |]; [| by eauto].
  unfold try_catch.
  destruct (protected_region _ _ _ _) as [[resp | err] [w1 l1]]; [by eauto |].
  rewrite run_on_failure. eauto.
Qed.

(** An invocation whose [try] block throws: the [catch] block runs from
    the state the block left. *)
Lemma invoke_aborted env req cid uid w err w1 l1 :
  req_method req = "POST" →
  req_json req = Some {| conversionId := cid; userId := uid |} →
  protected_region Number env cid {| world := w; effects := [] |} =
    (Throws err, {| world := w1; effects := l1 |}) →
  invoke Number env req w =
  (Returns (failure_response err),
   if truthy cid
   then {| world := update_row (failed_patch err) cid w1;
           effects := l1 ++ [DbUpdate "cad_conversions" (failed_patch err) "id" cid] |}
   else {| world := w1; effects := l1 |}).
Proof.
  intros Hm Hb Hrun. unfold invoke. rewrite (handler_post _ _ _ _ Hm Hb).
  unfold try_catch. rewrite Hrun. apply run_on_failure.
Qed.

(** ** Invocations that reach the call of the CAD service *)

Lemma invoke_reaches_fetch env req cid uid w job svgUrl metalSpecs :
  req_method req = "POST" →
  req_json req = Some {| conversionId := cid; userId := uid |} →
  data (find_conversion env w cid) = Some job →
  error (find_conversion env w cid) = None →
  vectorized_svg_url job = Some svgUrl →
  truthy svgUrl = true →
  data (find_metal_specs env w cid) = Some metalSpecs →
  let payload := cadReq Number svgUrl cid (data (find_gemstone_specs env w cid)) metalSpecs in
  ∃ resp st rest,
    invoke Number env req w = (Returns resp, st) ∧
    effects st = calls_until_fetch env cid payload ++ rest ∧
    Forall (λ e, is_fetch e = false) rest ∧
    (∀ err, cad_service env (CAD_URL env +:+ "/convert") (cad_fetch_init payload) = inl err →
            resp = failure_response err).
Proof.
  intros Hm Hb Hjob Herr Hsvg Htruthy Hmetal payload.
  unfold invoke. rewrite (handler_post _ _ _ _ Hm Hb). unfold try_catch.
  rewrite (run_until_fetch _ _ _ _ _ _ Hjob Herr Hsvg Htruthy Hmetal).
  fold payload.
  destruct (cad_service _ _ _) as [err | cadResp].
  - rewrite run_on_failure.
    destruct (truthy cid); eexists _, _, _;
      (split; [reflexivity |]); cbn [effects];
      (split; [reflexivity || (by rewrite app_nil_r) |]);
      (split; [by repeat constructor |]); by intros ? [= ->].
  - set (st5 := {| world := _; effects := _ |}).
    destruct (after_response_does_not_fetch env cid cadResp st5) as (l1 & El & Fl).
    destruct (after_response env cid cadResp st5) as [[resp | err] [w1 l]];
      cbn [snd effects] in El; subst l.
    + eexists _, _, _. split; [reflexivity |]. cbn [effects st5].
      split; [reflexivity |]. split; [done |]. by intros ? [=].
    + rewrite run_on_failure.
      destruct (truthy cid); eexists _, _, _;
        (split; [reflexivity |]); cbn [effects st5].
      * rewrite <- app_assoc. split; [reflexivity |].
        split; [| by intros ? [=]].
        apply Forall_app. split; [done | by repeat constructor].
      * split; [reflexivity |]. split; [done | by intros ? [=]].
Qed.

Lemma invoke_conversion env req cid uid w job svgUrl metalSpecs cadResp fields :
  req_method req = "POST" →
  req_json req = Some {| conversionId := cid; userId := uid |} →
  data (find_conversion env w cid) = Some job →
  error (find_conversion env w cid) = None →
  vectorized_svg_url job = Some svgUrl →
  truthy svgUrl = true →
  data (find_metal_specs env w cid) = Some metalSpecs →
  let payload := cadReq Number svgUrl cid (data (find_gemstone_specs env w cid)) metalSpecs in
  cad_service env (CAD_URL env +:+ "/convert") (cad_fetch_init payload) = inr cadResp →
  fr_ok cadResp = true →
  fr_json cadResp = inr (VObject fields) →
  (∀ path, upload_fails env path = false) →
  let step_file := default VUndefined (assoc "step_file" fields) in
  let stl_file := default VUndefined (assoc "stl_file" fields) in
  let obj_file := default VUndefined (assoc "obj_file" fields) in
  invoke Number env req w =
  (Returns (success_response cid),
   {| world := converted_world env cid step_file stl_file obj_file w;
      effects := calls_until_fetch env cid payload ++
                 calls_after_fetch env cid step_file stl_file obj_file |}).
Proof.
  intros Hm Hb Hjob Herr Hsvg Htruthy Hmetal payload Hcad Hok Hjson Hup.
  unfold invoke. rewrite (handler_post _ _ _ _ Hm Hb). unfold try_catch.
  by rewrite (run_conversion env cid w job svgUrl metalSpecs cadResp fields).
Qed.

(** A call of another kind than those of an explicit list is not in it. *)
Ltac not_among_calls :=
  let H := fresh in
  intros H;
  repeat (apply elem_of_cons in H as [H | H]; [discriminate H |]);
  by apply elem_of_nil in H.

(** Every invocation that calls the CAD service passed the checks of
    steps 1 to 4. *)
Lemma fetch_only_after_checks env req w url init :
  HttpFetch url init ∈ effects (invoke Number env req w).2 →
  ∃ cid uid job svgUrl metalSpecs,
    req_method req = "POST" ∧
    req_json req = Some {| conversionId := cid; userId := uid |} ∧
    data (find_conversion env w cid) = Some job ∧
    error (find_conversion env w cid) = None ∧
    vectorized_svg_url job = Some svgUrl ∧
    truthy svgUrl = true ∧
    data (find_metal_specs env w cid) = Some metalSpecs.
Proof.
  unfold invoke, handler.
  destruct (String.eqb (req_method req) "OPTIONS") eqn:Hopt;
    [by intros ?%elem_of_nil |].
  destruct (String.eqb (req_method req) "POST") eqn:Hpost;
    [| by intros ?%elem_of_nil].
  apply String.eqb_eq in Hpost. cbn [negb].
  destruct (req_json req) as [[cid uid] |]; [| by intros ?%elem_of_nil].
  unfold try_catch.
  destruct (data (find_conversion env w cid)) as [job |] eqn:Hjob.
  2: { rewrite (run_region_no_conversion _ _ _ Hjob), run_on_failure.
       destruct (truthy cid); cbn [snd effects app]; not_among_calls. }
  destruct (error (find_conversion env w cid)) as [msg |] eqn:Herr.
  { rewrite (run_region_query_error _ _ _ _ Herr), run_on_failure.
    destruct (truthy cid); cbn [snd effects app]; not_among_calls. }
  destruct (vectorized_svg_url job) as [svgUrl |] eqn:Hsvg.
  2: { rewrite (run_region_no_svg_url _ _ _ _ Hjob Herr (or_introl Hsvg)), run_on_failure.
       destruct (truthy cid); cbn [snd effects app]; not_among_calls. }
  destruct (truthy svgUrl) eqn:Htruthy.
  2: { assert (svgUrl = "") as ->.
       { unfold truthy in Htruthy. apply negb_false_iff in Htruthy.
         by apply String.eqb_eq. }
       rewrite (run_region_no_svg_url _ _ _ _ Hjob Herr (or_intror Hsvg)), run_on_failure.
       destruct (truthy cid); cbn [snd effects app]; not_among_calls. }
  destruct (data (find_metal_specs env w cid)) as [metalSpecs |] eqn:Hmetal.
  2: { rewrite (run_region_no_metal_specs _ _ _ _ _ Hjob Herr Hsvg Htruthy Hmetal),
         run_on_failure.
       destruct (truthy cid); cbn [snd effects app]; not_among_calls. }
  intros _. by eexists cid, uid, job, svgUrl, metalSpecs.
Qed.

(** * The properties of the specification *)

(** C6. A POST request whose body does not parse as JSON is answered
    with status 400 and body [{error: "Invalid JSON"}]; the handler makes
    no call at all (so neither reads nor writes the job store) and leaves
    every collaborator as it was. *)
Theorem invalid_json_is_rejected_untouched env req w :
  req_method req = "POST" →
  req_json req = None →
  invoke Number env req w =
  (Returns {| resp_body := JSON_stringify (VObject [ ("error", VString "Invalid JSON") ]);
              resp_status := 400;
              resp_headers := CORS_json |},
   {| world := w; effects := [] |}).
Proof. intros Hm Hb. unfold invoke, handler. by rewrite Hm, Hb. Qed.

(** C10. Two POST requests whose bodies differ only in [userId] have the
    same outcome: the same response, the same calls in the same order, the
    same final state of the collaborators. *)
Theorem userId_is_never_observed env cid uid1 uid2 w :
  invoke Number env
    {| req_method := "POST";
       req_json := Some {| conversionId := cid; userId := uid1 |} |} w =
  invoke Number env
    {| req_method := "POST";
       req_json := Some {| conversionId := cid; userId := uid2 |} |} w.
Proof. reflexivity. Qed.

(** C2. Whatever step of the [try] block throws, when the conversion id
    is known (truthy) the handler makes exactly one write that sets
    [status] to ["failed"]; that write is the last call, it sets
    [current_step] to 0 and [error_message] to [String(err)], and the
    response is 500 with body [{success: false, error: String(err)}]. *)
Theorem failure_is_recorded_once env req cid uid w err st1 :
  req_method req = "POST" →
  req_json req = Some {| conversionId := cid; userId := uid |} →
  protected_region Number env cid {| world := w; effects := [] |} = (Throws err, st1) →
  truthy cid = true →
  ∃ st,
    invoke Number env req w =
      (Returns {| resp_body := JSON_stringify
                    (VObject [ ("success", VBool false);
                               ("error", VString (String_of err)) ]);
                  resp_status := 500;
                  resp_headers := CORS_json |}, st) ∧
    effects st =
      effects st1 ++
      [DbUpdate "cad_conversions"
         {| set_status := Some "failed"; set_current_step := Some 0%Z;
            set_cad_file_url := None; set_stl_file_url := None;
            set_obj_file_url := None; set_completed_at := None;
            set_error_message := Some (String_of err) |} "id" cid] ∧
    world st = update_row (failed_patch err) cid (world st1) ∧
    length (filter marks_failed (effects st)) = 1.
Proof.
  intros Hm Hb Hrun Hid.
  destruct (protected_region_emits env cid {| world := w; effects := [] |})
    as (l & Hl & Hcalls).
  rewrite Hrun in Hl. simpl in Hl.
  unfold invoke. rewrite (handler_post _ _ _ _ Hm Hb).
  unfold try_catch. rewrite Hrun. destruct st1 as [w1 l1]. simpl in Hl. subst l1.
  rewrite run_on_failure, Hid.
  eexists. split; [reflexivity |]. simpl.
  split; [reflexivity |]. split; [reflexivity |].
  rewrite filter_app, (no_failed_write_in_region _ _ _ Hcalls).
  reflexivity.
Qed.

(** C1. A POST request for an existing job with a non-empty
    [vectorized_svg_url] and exactly one metal-spec row, a CAD service that
    answers 2xx with the three file payloads, a bucket that accepts the
    uploads: the handler answers 200 with body
    [{success: true, conversionId}]; its last call is the write that sets
    the job to ["completed"] with the three URLs and [completed_at]; the
    job ends in that state and the three files are in the bucket. *)
Theorem conversion_completes env req cid uid w job svgUrl metalSpecs cadResp
    fields step_file stl_file obj_file :
  req_method req = "POST" →
  req_json req = Some {| conversionId := cid; userId := uid |} →
  identifies_job env w cid job →
  vectorized_svg_url job = Some svgUrl →
  svgUrl ≠ "" →
  has_one_metal_row env w cid metalSpecs →
  cad_service env (CAD_URL env +:+ "/convert")
    (cad_fetch_init
       (cadReq Number svgUrl cid (data (find_gemstone_specs env w cid)) metalSpecs))
    = inr cadResp →
  fr_ok cadResp = true →
  fr_json cadResp = inr (VObject fields) →
  assoc "step_file" fields = Some step_file →
  assoc "stl_file" fields = Some stl_file →
  assoc "obj_file" fields = Some obj_file →
  (∀ path, upload_fails env path = false) →
  ∃ st job',
    invoke Number env req w =
      (Returns {| resp_body := JSON_stringify
                    (VObject [ ("success", VBool true);
                               ("conversionId", VString cid) ]);
                  resp_status := 200;
                  resp_headers := CORS |}, st) ∧
    last (effects st) =
      Some (DbUpdate "cad_conversions"
              {| set_status := Some "completed"; set_current_step := Some 4%Z;
                 set_cad_file_url := Some (publicUrl env (step_path cid));
                 set_stl_file_url := Some (publicUrl env (stl_path cid));
                 set_obj_file_url := Some (publicUrl env (obj_path cid));
                 set_completed_at := Some (now env);
                 set_error_message := None |} "id" cid) ∧
    filter marks_failed (effects st) = [] ∧
    cad_conversions (world st) !! cid = Some job' ∧
    status job' = "completed" ∧
    cad_file_url job' = Some (publicUrl env (step_path cid)) ∧
    stl_file_url job' = Some (publicUrl env (stl_path cid)) ∧
    obj_file_url job' = Some (publicUrl env (obj_path cid)) ∧
    completed_at job' = Some (now env) ∧
    cad_files (world st) !! step_path cid = Some (stored "model/step" step_file) ∧
    cad_files (world st) !! stl_path cid = Some (stored "model/stl" stl_file) ∧
    cad_files (world st) !! obj_path cid = Some (stored "model/obj" obj_file).
Proof.
  intros Hm Hb Hjob Hsvg Hne Hmetal Hcad Hok Hjson Hstep Hstl Hobj Hup.
  assert (Htruthy : truthy svgUrl = true).
  { unfold truthy. apply negb_true_iff. by apply String.eqb_neq. }
  pose proof (find_conversion_identified _ _ _ _ Hjob) as Hfind.
  pose proof (find_metal_specs_one_row _ _ _ _ Hmetal) as Hfindm.
  unfold invoke. rewrite (handler_post _ _ _ _ Hm Hb). unfold try_catch.
  rewrite (run_conversion env cid w job svgUrl metalSpecs cadResp fields);
    [| by rewrite ?Hfind, ?Hfindm ..].
  rewrite Hstep, Hstl, Hobj. simpl default.
  eexists _, _. split; [reflexivity |]. simpl effects. simpl world.
  split; [reflexivity |]. split; [reflexivity |].
  split.
  { rewrite job_converted_world. destruct Hjob as [_ ->]. reflexivity. }
  rewrite cad_files_converted_world.
  repeat split.
  - rewrite lookup_insert_ne by (symmetry; apply step_path_ne_obj_path).
    rewrite lookup_insert_ne by (symmetry; apply step_path_ne_stl_path).
    by rewrite lookup_insert_eq.
  - rewrite lookup_insert_ne by (symmetry; apply stl_path_ne_obj_path).
    by rewrite lookup_insert_eq.
  - by rewrite lookup_insert_eq.
Qed.

(** C7, as amended. A POST request whose conversion id names no job is
    answered with the 500 failure response; the only calls are the lookup
    and, when the id is the non-empty string, the write that marks the
    job failed (for the empty id the guard of the [catch] block skips
    it); no job is created: the collaborators are left as they were. *)
Theorem unknown_job_fails_without_insert env req cid uid w :
  req_method req = "POST" →
  req_json req = Some {| conversionId := cid; userId := uid |} →
  cad_conversions w !! cid = None →
  invoke Number env req w =
  (Returns {| resp_body := JSON_stringify
                (VObject [ ("success", VBool false);
                           ("error", VString "Error: Conversion not found") ]);
              resp_status := 500;
              resp_headers := CORS_json |},
   {| world := w;
      effects :=
        DbSelect "cad_conversions" "id" cid true ::
        (if truthy cid
         then [DbUpdate "cad_conversions"
                 (failed_patch (Error "Conversion not found")) "id" cid]
         else []) |}).
Proof.
  intros Hm Hb Hjob.
  unfold invoke. rewrite (handler_post _ _ _ _ Hm Hb). unfold try_catch.
  rewrite (run_region_no_conversion _ _ _ (find_conversion_absent env _ _ Hjob)).
  rewrite run_on_failure.
  destruct (truthy cid); [| done].
  by rewrite (update_row_absent _ _ _ Hjob).
Qed.

(** C3, as amended. When the metal-spec lookup for the conversion id
    yields no row, the handler calls neither the CAD service nor the
    bucket and answers 500; when the conversion id is the non-empty
    string, its last call marks the job failed, which is then the state
    of the job if there is one. When the job is found with its SVG URL,
    the handler stops right after the four database calls of steps 1 to
    4, with the error "Missing metal specs". *)
Theorem missing_metal_specs_aborts env req cid uid w :
  req_method req = "POST" →
  req_json req = Some {| conversionId := cid; userId := uid |} →
  data (find_metal_specs env w cid) = None →
  ∃ err st,
    invoke Number env req w =
      (Returns {| resp_body := JSON_stringify
                    (VObject [ ("success", VBool false);
                               ("error", VString (String_of err)) ]);
                  resp_status := 500;
                  resp_headers := CORS_json |}, st) ∧
    filter is_fetch (effects st) = [] ∧
    filter is_upload (effects st) = [] ∧
    (cid ≠ "" →
     last (effects st) =
       Some (DbUpdate "cad_conversions"
               {| set_status := Some "failed"; set_current_step := Some 0%Z;
                  set_cad_file_url := None; set_stl_file_url := None;
                  set_obj_file_url := None; set_completed_at := None;
                  set_error_message := Some (String_of err) |} "id" cid) ∧
     ∀ job, cad_conversions w !! cid = Some job →
       ∃ job', cad_conversions (world st) !! cid = Some job' ∧
               status job' = "failed" ∧ current_step job' = 0%Z ∧
               error_message job' = Some (String_of err)) ∧
    (∀ job svgUrl,
       identifies_job env w cid job →
       vectorized_svg_url job = Some svgUrl →
       svgUrl ≠ "" →
       err = Error "Missing metal specs" ∧
       effects st =
         [ DbSelect "cad_conversions" "id" cid true;
           DbUpdate "cad_conversions" generating_patch "id" cid;
           DbSelect "gemstone_specs" "conversion_id" cid false;
           DbSelect "metal_specs" "conversion_id" cid true ] ++
         (if truthy cid
          then [DbUpdate "cad_conversions"
                  (failed_patch (Error "Missing metal specs")) "id" cid]
          else [])).
Proof.
  intros Hm Hb Hmetal.
  assert (Hstop : ∃ err w1 l1,
    protected_region Number env cid {| world := w; effects := [] |} =
      (Throws err, {| world := w1; effects := l1 |}) ∧
    filter is_fetch l1 = [] ∧ filter is_upload l1 = [] ∧
    (w1 = w ∨ w1 = update_row generating_patch cid w) ∧
    (∀ job svgUrl,
       identifies_job env w cid job →
       vectorized_svg_url job = Some svgUrl →
       svgUrl ≠ "" →
       err = Error "Missing metal specs" ∧
       l1 = [ DbSelect "cad_conversions" "id" cid true;
              DbUpdate "cad_conversions" generating_patch "id" cid;
              DbSelect "gemstone_specs" "conversion_id" cid false;
              DbSelect "metal_specs" "conversion_id" cid true ])).
  { destruct (data (find_conversion env w cid)) as [job |] eqn:Hjob.
    2: { eexists _, _, _. split; [by apply run_region_no_conversion |].
         split; [reflexivity |]. split; [reflexivity |]. split; [by left |].
         intros job svgUrl Hid.
         rewrite (find_conversion_identified _ _ _ _ Hid) in Hjob. discriminate. }
    destruct (error (find_conversion env w cid)) as [msg |] eqn:Herr.
    { eexists _, _, _. split; [by eapply run_region_query_error |].
      split; [reflexivity |]. split; [reflexivity |]. split; [by left |].
      intros job' svgUrl Hid.
      rewrite (find_conversion_identified _ _ _ _ Hid) in Herr. discriminate. }
    destruct (vectorized_svg_url job) as [svgUrl |] eqn:Hsvg.
    2: { eexists _, _, _.
         split; [by eapply run_region_no_svg_url; eauto |].
         split; [reflexivity |]. split; [reflexivity |]. split; [by left |].
         intros job' svgUrl Hid Hsvg'.
         rewrite (find_conversion_identified _ _ _ _ Hid) in Hjob.
         injection Hjob as ->. congruence. }
    destruct (truthy svgUrl) eqn:Htruthy.
    2: { assert (svgUrl = "") as ->.
         { unfold truthy in Htruthy. apply negb_false_iff in Htruthy.
           by apply String.eqb_eq. }
         eexists _, _, _.
         split; [by eapply run_region_no_svg_url; eauto |].
         split; [reflexivity |]. split; [reflexivity |]. split; [by left |].
         intros job' svgUrl Hid Hsvg' Hne.
         rewrite (find_conversion_identified _ _ _ _ Hid) in Hjob.
         injection Hjob as ->. congruence. }
    eexists _, _, _.
    split; [by eapply run_region_no_metal_specs; eauto |].
    split; [reflexivity |]. split; [reflexivity |]. split; [by right |].
    done. }
  destruct Hstop as (err & w1 & l1 & Hrun & Hfetch & Hupload & Hw1 & Hreached).
  exists err. eexists.
  split; [exact (invoke_aborted _ _ _ _ _ _ _ _ Hm Hb Hrun) |].
  destruct (truthy cid) eqn:Hid; cbn [effects world].
  - rewrite !filter_app, Hfetch, Hupload.
    split; [reflexivity |]. split; [reflexivity |]. split.
    + intros _. split; [by rewrite last_snoc |].
      intros job Hjob. rewrite lookup_update_row.
      destruct Hw1 as [-> | ->]; rewrite ?lookup_update_row, Hjob;
        eexists; (split; [reflexivity | done]).
    + intros job svgUrl Hfound Hsvg Hne.
      by destruct (Hreached _ _ Hfound Hsvg Hne) as [-> ->].
  - split; [done |]. split; [done |]. split.
    + intros Hcid. apply truthy_true in Hcid. congruence.
    + intros job svgUrl Hfound Hsvg Hne.
      destruct (Hreached _ _ Hfound Hsvg Hne) as [-> ->].
      by rewrite app_nil_r.
Qed.

Lemma run_require_ok_fails cadResp st :
  fr_ok cadResp = false →
  require_ok cadResp st =
  (Throws (match fr_text cadResp with
           | inr txt => Error ("CAD service error: " +:+ txt)
           | inl rejection => rejection
           end), st).
Proof.
  intros Hok. unfold require_ok. rewrite Hok, run_bind.
  by destruct (fr_text cadResp).
Qed.

(** C4, as amended. When the CAD service answers with a status outside
    200-299, the handler makes no upload and answers 500; the error is
    ["CAD service error: " + txt] when the body text [txt] can be read,
    and the rejection of the read when it cannot; when the conversion id
    is the non-empty string, the last call marks the job failed with the
    stringified error, which in the first case is
    ["Error: CAD service error: " + txt], as [error_message]. *)
Theorem cad_error_is_recorded env req cid uid w job svgUrl metalSpecs cadResp :
  req_method req = "POST" →
  req_json req = Some {| conversionId := cid; userId := uid |} →
  identifies_job env w cid job →
  vectorized_svg_url job = Some svgUrl →
  svgUrl ≠ "" →
  data (find_metal_specs env w cid) = Some metalSpecs →
  let payload :=
    cadReq Number svgUrl cid (data (find_gemstone_specs env w cid)) metalSpecs in
  cad_service env (CAD_URL env +:+ "/convert") (cad_fetch_init payload) = inr cadResp →
  ¬ (200 ≤ fr_status cadResp ≤ 299)%Z →
  ∃ err st,
    err = match fr_text cadResp with
          | inr txt => {| exn_name := "Error";
                          exn_message := "CAD service error: " +:+ txt |}
          | inl rejection => rejection
          end ∧
    (∀ txt, fr_text cadResp = inr txt →
            String_of err = "Error: CAD service error: " +:+ txt) ∧
    invoke Number env req w =
      (Returns {| resp_body := JSON_stringify
                    (VObject [ ("success", VBool false);
                               ("error", VString (String_of err)) ]);
                  resp_status := 500;
                  resp_headers := CORS_json |}, st) ∧
    effects st =
      calls_until_fetch env cid payload ++
      (if truthy cid
       then [DbUpdate "cad_conversions"
               {| set_status := Some "failed"; set_current_step := Some 0%Z;
                  set_cad_file_url := None; set_stl_file_url := None;
                  set_obj_file_url := None; set_completed_at := None;
                  set_error_message := Some (String_of err) |}
               "id" cid]
       else []) ∧
    filter is_upload (effects st) = [] ∧
    cad_files (world st) = cad_files w ∧
    (cid ≠ "" →
     ∃ job', cad_conversions (world st) !! cid = Some job' ∧
             status job' = "failed" ∧
             error_message job' = Some (String_of err)).
Proof.
  intros Hm Hb Hjob Hsvg Hne Hmetal payload Hcad Hstatus.
  apply truthy_true in Hne.
  pose proof (find_conversion_identified _ _ _ _ Hjob) as Hfind.
  assert (Hok : fr_ok cadResp = false) by (by apply bool_decide_eq_false).
  eexists _, _. split; [reflexivity |].
  split.
  { intros txt ->. reflexivity. }
  unfold invoke. rewrite (handler_post _ _ _ _ Hm Hb). unfold try_catch.
  rewrite (run_until_fetch env cid w job svgUrl metalSpecs);
    [| by rewrite ?Hfind ..].
  fold payload. rewrite Hcad.
  unfold after_response.
  rewrite run_bind, (run_require_ok_fails _ _ Hok).
  rewrite run_on_failure.
  split; [reflexivity |].
  destruct (truthy cid) eqn:Hid; cbn [effects world].
  - repeat split. intros _. eexists. split.
    + rewrite !lookup_update_row. destruct Hjob as [_ ->]. reflexivity.
    + done.
  - repeat split. intros Hcid. apply truthy_true in Hcid. congruence.
Qed.

(** C9. When the gemstone-spec read yields no data (zero rows, or a
    [null] result), the handler goes on: after the four database calls of
    steps 1 to 4 it calls the CAD service with [gemstone_specs] equal to
    the empty array, and no write marking the job failed precedes that
    call; with a CAD service and a bucket that cooperate the conversion
    succeeds and the job is never marked failed. *)
Theorem absent_gemstones_reach_cad_call env req cid uid w job svgUrl metalSpecs :
  req_method req = "POST" →
  req_json req = Some {| conversionId := cid; userId := uid |} →
  identifies_job env w cid job →
  vectorized_svg_url job = Some svgUrl →
  svgUrl ≠ "" →
  data (find_metal_specs env w cid) = Some metalSpecs →
  (data (find_gemstone_specs env w cid) = None ∨
   data (find_gemstone_specs env w cid) = Some []) →
  let payload :=
    VObject [ ("svg_url", VString svgUrl);
              ("design_id", VString cid);
              ("gemstone_specs", VArray []);
              ("metal_specs", metal_payload Number metalSpecs) ] in
  ∃ resp st rest,
    invoke Number env req w = (Returns resp, st) ∧
    effects st =
      [ DbSelect "cad_conversions" "id" cid true;
        DbUpdate "cad_conversions" generating_patch "id" cid;
        DbSelect "gemstone_specs" "conversion_id" cid false;
        DbSelect "metal_specs" "conversion_id" cid true;
        HttpFetch (CAD_URL env +:+ "/convert") (cad_fetch_init payload) ] ++ rest ∧
    (∀ cadResp fields,
       cad_service env (CAD_URL env +:+ "/convert") (cad_fetch_init payload) = inr cadResp →
       fr_ok cadResp = true →
       fr_json cadResp = inr (VObject fields) →
       (∀ path, upload_fails env path = false) →
       resp = success_response cid ∧ filter marks_failed (effects st) = []).
Proof.
  intros Hm Hb Hjob Hsvg Hne Hmetal Hgems payload.
  apply truthy_true in Hne.
  pose proof (find_conversion_identified _ _ _ _ Hjob) as Hfind.
  assert (Hpayload :
    cadReq Number svgUrl cid (data (find_gemstone_specs env w cid)) metalSpecs = payload).
  { by destruct Hgems as [-> | ->]. }
  destruct (invoke_reaches_fetch env req cid uid w job svgUrl metalSpecs)
    as (resp & st & rest & Hinv & Heff & _); [by rewrite ?Hfind .. |].
  rewrite Hpayload in Heff.
  exists resp, st, rest. split; [done |]. split; [done |].
  intros cadResp fields Hcad Hok Hjson Hup.
  rewrite (invoke_conversion env req cid uid w job svgUrl metalSpecs cadResp fields)
    in Hinv; [| by rewrite ?Hfind, ?Hpayload ..].
  by injection Hinv as <- <-.
Qed.

(** C5. Every call of the CAD service the handler makes is a POST to
    [<CAD_URL>/convert], after the job, its SVG URL and its metal row
    were found. Its JSON body is [{svg_url, design_id, gemstone_specs,
    metal_specs}]: [svg_url] is the job's [vectorized_svg_url],
    [design_id] the conversion id, [gemstone_specs] one object
    [{shape, size_mm, dia_wt, quantity, setting_type}] per gemstone row
    read, in order, with [size_mm = Number(mm_size)] and
    [dia_wt = Number(dia_wt)], and [metal_specs] is
    [{type: color, karat, weight_grams: Number(gold_weight), tone}] of
    the metal row. The call is under an abort signal of 300 seconds
    (300000 ms); and when it rejects, as it does when the signal fires,
    the invocation still ends, with the 500 failure response carrying
    the rejection. *)
Theorem cad_call_contract env req w url init :
  HttpFetch url init ∈ effects (invoke Number env req w).2 →
  ∃ cid uid job svgUrl metalSpecs payload,
    req_json req = Some {| conversionId := cid; userId := uid |} ∧
    data (find_conversion env w cid) = Some job ∧
    vectorized_svg_url job = Some svgUrl ∧
    data (find_metal_specs env w cid) = Some metalSpecs ∧
    url = CAD_URL env +:+ "/convert" ∧
    init = {| fetch_method := "POST";
              fetch_headers := [ ("Content-Type", "application/json") ];
              fetch_body := JSON_stringify payload;
              fetch_timeout_ms := 300 * 1000 |} ∧
    payload =
      VObject
        [ ("svg_url", VString svgUrl);
          ("design_id", VString cid);
          ("gemstone_specs",
           VArray
             (map (λ g, VObject [ ("shape", shape g);
                                  ("size_mm", VNumber (Number (mm_size g)));
                                  ("dia_wt", VNumber (Number (dia_wt g)));
                                  ("quantity", quantity g);
                                  ("setting_type", setting_type g) ])
                  (default [] (data (find_gemstone_specs env w cid)))));
          ("metal_specs",
           VObject [ ("type", color metalSpecs);
                     ("karat", karat metalSpecs);
                     ("weight_grams", VNumber (Number (gold_weight metalSpecs)));
                     ("tone", tone metalSpecs) ]) ] ∧
    is_cad_payload cid payload ∧
    (∀ err, cad_service env url init = inl err →
       (invoke Number env req w).1 =
       Returns {| resp_body := JSON_stringify
                    (VObject [ ("success", VBool false);
                               ("error", VString (String_of err)) ]);
                  resp_status := 500;
                  resp_headers := CORS_json |}).
Proof.
  intros Hin.
  destruct (fetch_only_after_checks _ _ _ _ _ Hin)
    as (cid & uid & job & svgUrl & metalSpecs & Hm & Hb & Hjob & Herr & Hsvg & Ht & Hmetal).
  destruct (invoke_reaches_fetch env req cid uid w job svgUrl metalSpecs Hm Hb
              Hjob Herr Hsvg Ht Hmetal)
    as (resp & st & rest & Hinv & Heff & Hrest & Hrej).
  rewrite Hinv in Hin |- *. cbn [fst snd] in *.
  rewrite Heff in Hin. apply elem_of_app in Hin as [Hin | Hin].
  - apply fetch_in_calls_until_fetch in Hin as [-> ->].
    eexists cid, uid, job, svgUrl, metalSpecs, _.
    split; [done |]. split; [done |]. split; [done |]. split; [done |].
    split; [done |]. split; [reflexivity |].
    split.
    { unfold cadReq, metal_payload.
      by destruct (data (find_gemstone_specs env w cid)). }
    split; [apply cadReq_is_cad_payload |].
    intros err Hcad. by rewrite (Hrej err Hcad).
  - rewrite Forall_forall in Hrest. by specialize (Hrest _ Hin).
Qed.

(** C8. Two invocations in succession for the same conversion id, the
    CAD service answering both with the same files: each makes the same
    three uploads, to [step/design_<id>.step], [stl/design_<id>.stl],
    [obj/design_<id>.obj] with content types [model/step], [model/stl],
    [model/obj] and [upsert] on; no upload resolves to an error although
    the paths are taken the second time; after the second invocation the
    bucket is exactly what it was after the first (the objects are
    overwritten, none is added), and the job is ["completed"]. *)
Theorem reconversion_overwrites env t2 req cid uid w job svgUrl metalSpecs cadResp
    fields step_file stl_file obj_file :
  req_method req = "POST" →
  req_json req = Some {| conversionId := cid; userId := uid |} →
  identifies_job env w cid job →
  vectorized_svg_url job = Some svgUrl →
  svgUrl ≠ "" →
  has_one_metal_row env w cid metalSpecs →
  cad_service env (CAD_URL env +:+ "/convert")
    (cad_fetch_init
       (cadReq Number svgUrl cid (data (find_gemstone_specs env w cid)) metalSpecs))
    = inr cadResp →
  fr_ok cadResp = true →
  fr_json cadResp = inr (VObject fields) →
  assoc "step_file" fields = Some step_file →
  assoc "stl_file" fields = Some stl_file →
  assoc "obj_file" fields = Some obj_file →
  (∀ path, upload_fails env path = false) →
  ∃ st1 st2 job2,
    invoke Number env req w = (Returns (success_response cid), st1) ∧
    invoke Number (at_time t2 env) req (world st1) =
      (Returns (success_response cid), st2) ∧
    filter is_upload (effects st1) =
      [ StorageUpload "cad-files" ("step/design_" +:+ cid +:+ ".step")
          {| blob_parts := [step_file] |}
          {| contentType := "model/step"; upsert := true |};
        StorageUpload "cad-files" ("stl/design_" +:+ cid +:+ ".stl")
          {| blob_parts := [stl_file] |}
          {| contentType := "model/stl"; upsert := true |};
        StorageUpload "cad-files" ("obj/design_" +:+ cid +:+ ".obj")
          {| blob_parts := [obj_file] |}
          {| contentType := "model/obj"; upsert := true |} ] ∧
    filter is_upload (effects st2) = filter is_upload (effects st1) ∧
    (∀ w' path content ct,
       (upload_result (at_time t2 env) path content
          {| contentType := ct; upsert := true |} w').1 = None) ∧
    dom (cad_files (world st1)) =
      {[ "obj/design_" +:+ cid +:+ ".obj" ]} ∪
      ({[ "stl/design_" +:+ cid +:+ ".stl" ]} ∪
       ({[ "step/design_" +:+ cid +:+ ".step" ]} ∪ dom (cad_files w))) ∧
    cad_files (world st2) = cad_files (world st1) ∧
    cad_conversions (world st2) !! cid = Some job2 ∧
    status job2 = "completed" ∧
    cad_file_url job2 = Some (publicUrl env ("step/design_" +:+ cid +:+ ".step")) ∧
    stl_file_url job2 = Some (publicUrl env ("stl/design_" +:+ cid +:+ ".stl")) ∧
    obj_file_url job2 = Some (publicUrl env ("obj/design_" +:+ cid +:+ ".obj")) ∧
    completed_at job2 = Some t2.
Proof.
  intros Hm Hb Hjob Hsvg Hne Hmetal Hcad Hok Hjson Hstep Hstl Hobj Hup.
  apply truthy_true in Hne.
  pose proof (find_conversion_identified _ _ _ _ Hjob) as Hfind.
  pose proof (find_metal_specs_one_row _ _ _ _ Hmetal) as Hfindm.
  pose proof (invoke_conversion env req cid uid w job svgUrl metalSpecs cadResp fields)
    as Hrun1.
  rewrite Hstep, Hstl, Hobj in Hrun1. cbn [default] in Hrun1.
  specialize (Hrun1 Hm Hb).
  rewrite Hfind, Hfindm in Hrun1.
  specialize (Hrun1 eq_refl eq_refl Hsvg Hne eq_refl Hcad Hok Hjson Hup).
  set (w1 := converted_world env cid step_file stl_file obj_file w) in *.
  set (job1 := apply_patch
                 (completed_patch (publicUrl env (step_path cid))
                    (publicUrl env (stl_path cid)) (publicUrl env (obj_path cid))
                    (now env))
                 (apply_patch generating_patch job)).
  assert (Hfind1 : find_conversion (at_time t2 env) w1 cid =
                   {| data := Some job1; error := None |}).
  { apply find_conversion_identified. destruct Hjob as [Hq Hrow].
    split; [exact Hq |]. unfold w1. rewrite job_converted_world, Hrow. done. }
  assert (Hfindm1 : find_metal_specs (at_time t2 env) w1 cid =
                    {| data := Some metalSpecs; error := None |}) by exact Hfindm.
  pose proof (invoke_conversion (at_time t2 env) req cid uid w1 job1 svgUrl metalSpecs
                cadResp fields) as Hrun2.
  rewrite Hstep, Hstl, Hobj in Hrun2. cbn [default] in Hrun2.
  specialize (Hrun2 Hm Hb).
  rewrite Hfind1, Hfindm1 in Hrun2.
  specialize (Hrun2 eq_refl eq_refl Hsvg Hne eq_refl Hcad Hok Hjson Hup).
  eexists _, _, _.
  split; [exact Hrun1 |]. cbn [world].
  split; [exact Hrun2 |]. cbn [effects world].
  split; [reflexivity |]. split; [reflexivity |].
  split.
  { intros w' path content ct. rewrite upload_result_upsert; [done | apply Hup]. }
  split.
  { unfold w1. rewrite cad_files_converted_world. by rewrite !dom_insert_L. }
  split.
  { unfold w1. rewrite !cad_files_converted_world.
    apply map_eq. intros k. rewrite !lookup_insert.
    by repeat case_decide. }
  split.
  { rewrite job_converted_world. unfold w1. rewrite job_converted_world.
    destruct Hjob as [_ ->]. reflexivity. }
  done.
Qed.

(** * Further properties of the handler *)

(** ** The block from the answer of the CAD service on, in general *)

Lemma run_get_property (v : @JsValue number) key st :
  v ≠ VNull → v ≠ VUndefined →
  get_property v key st = (Returns (property_of v key), st).
Proof. intros Hnull Hundef. by destruct v. Qed.

(** A 2xx answer whose body is JSON other than [null]: the rest of the
    block does not throw, whatever the bucket does with the uploads. *)
Lemma run_after_response_any env cid cadResp cadJson w l :
  fr_ok cadResp = true →
  fr_json cadResp = inr cadJson →
  cadJson ≠ VNull → cadJson ≠ VUndefined →
  let step_file := property_of cadJson "step_file" in
  let stl_file := property_of cadJson "stl_file" in
  let obj_file := property_of cadJson "obj_file" in
  after_response env cid cadResp {| world := w; effects := l |} =
  (Returns (success_response cid),
   {| world :=
        update_row
          (completed_patch (publicUrl env (step_path cid)) (publicUrl env (stl_path cid))
                           (publicUrl env (obj_path cid)) (now env)) cid
          (uploaded env cid step_file stl_file obj_file w);
      effects := l ++ calls_after_fetch env cid step_file stl_file obj_file |}).
Proof.
  intros Hok Hjson Hnull Hundef step_file stl_file obj_file.
  unfold after_response.
  rewrite run_bind, (run_require_ok _ _ Hok); cbv beta iota.
  rewrite run_bind, Hjson; cbv beta iota. simpl await. unfold ret at 1. cbv beta iota.
  rewrite run_bind, (run_get_property _ _ _ Hnull Hundef); cbv beta iota.
  fold step_file. run_step.
  rewrite run_bind, (run_get_property _ _ _ Hnull Hundef); cbv beta iota.
  fold stl_file. run_step.
  rewrite run_bind, (run_get_property _ _ _ Hnull Hundef); cbv beta iota.
  fold obj_file. run_step.
  do 4 run_step.
  unfold ret, calls_after_fetch, uploaded.
  by rewrite <- !app_assoc.
Qed.

Lemma run_after_response_unreadable env cid cadResp err st :
  fr_ok cadResp = true →
  fr_json cadResp = inl err →
  after_response env cid cadResp st = (Throws err, st).
Proof.
  intros Hok Hjson. unfold after_response.
  rewrite run_bind, (run_require_ok _ _ Hok); cbv beta iota.
  by rewrite run_bind, Hjson.
Qed.

Lemma run_after_response_null env cid cadResp st :
  fr_ok cadResp = true →
  fr_json cadResp = inr VNull →
  after_response env cid cadResp st = (Throws (null_property_error "step_file"), st).
Proof.
  intros Hok Hjson. unfold after_response.
  rewrite run_bind, (run_require_ok _ _ Hok); cbv beta iota.
  rewrite run_bind, Hjson; cbv beta iota. simpl await. unfold ret at 1. cbv beta iota.
  by rewrite run_bind.
Qed.

(** The rest of the block either throws at once, leaving the state as it
    found it, or runs to its end. *)
Lemma after_response_cases env cid cadResp :
  (∀ st, ∃ err, after_response env cid cadResp st = (Throws err, st)) ∨
  (∃ cadJson, fr_ok cadResp = true ∧ fr_json cadResp = inr cadJson ∧
              cadJson ≠ VNull ∧ cadJson ≠ VUndefined).
Proof.
  destruct (fr_ok cadResp) eqn:Hok.
  2: { left. intros st. unfold after_response. rewrite run_bind.
       unfold require_ok. rewrite Hok, run_bind.
       destruct (fr_text cadResp); eauto. }
  destruct (fr_json cadResp) as [err | cadJson] eqn:Hjson.
  { left. intros st. eexists. by apply run_after_response_unreadable. }
  destruct cadJson as [| | b | n | str | items | fields].
  - left. intros st. unfold after_response.
    rewrite run_bind, (run_require_ok _ _ Hok); cbv beta iota.
    rewrite run_bind, Hjson; cbv beta iota. simpl await. unfold ret at 1.
    cbv beta iota. rewrite run_bind. eauto.
  - left. intros st. eexists. by apply run_after_response_null.
  - right. by eexists.
  - right. by eexists.
  - right. by eexists.
  - right. by eexists.
  - right. by eexists.
Qed.

(** ** Every way the [try] block can end *)

(** The block either throws, having at most set the job to generating
    and called the CAD service once, with no upload made; or it runs to
    its end on a JSON answer, with the success response. *)
Lemma protected_region_cases env cid w :
  (∃ err w1 l1,
     protected_region Number env cid {| world := w; effects := [] |} =
       (Throws err, {| world := w1; effects := l1 |}) ∧
     (w1 = w ∨ w1 = update_row generating_patch cid w) ∧
     filter is_upload l1 = [] ∧
     (length (filter is_fetch l1) ≤ 1)%nat) ∨
  (∃ payload cadJson,
     protected_region Number env cid {| world := w; effects := [] |} =
       (Returns (success_response cid),
        {| world := finished_world env cid cadJson w;
           effects := finished_calls env cid payload cadJson |})).
Proof.
  destruct (data (find_conversion env w cid)) as [job |] eqn:Hjob.
  2: { left. eexists _, _, _. split; [by apply run_region_no_conversion |].
       split; [by left |]. split; [reflexivity | simpl; lia]. }
  destruct (error (find_conversion env w cid)) as [msg |] eqn:Herr.
  { left. eexists _, _, _. split; [by eapply run_region_query_error |].
    split; [by left |]. split; [reflexivity | simpl; lia]. }
  destruct (vectorized_svg_url job) as [svgUrl |] eqn:Hsvg.
  2: { left. eexists _, _, _.
       split; [by eapply run_region_no_svg_url; eauto |].
       split; [by left |]. split; [reflexivity | simpl; lia]. }
  destruct (truthy svgUrl) eqn:Htruthy.
  2: { assert (svgUrl = "") as ->.
       { unfold truthy in Htruthy. apply negb_false_iff in Htruthy.
         by apply String.eqb_eq. }
       left. eexists _, _, _.
       split; [by eapply run_region_no_svg_url; eauto |].
       split; [by left |]. split; [reflexivity | simpl; lia]. }
  destruct (data (find_metal_specs env w cid)) as [metalSpecs |] eqn:Hmetal.
  2: { left. eexists _, _, _.
       split; [by eapply run_region_no_metal_specs; eauto |].
       split; [by right |]. split; [reflexivity | simpl; lia]. }
  rewrite (run_until_fetch _ _ _ _ _ _ Hjob Herr Hsvg Htruthy Hmetal).
  destruct (cad_service _ _ _) as [err | cadResp].
  { left. eexists _, _, _. split; [reflexivity |].
    split; [by right |]. split; [reflexivity | simpl; lia]. }
  destruct (after_response_cases env cid cadResp)
    as [Hthrows | (cadJson & Hok & Hjson & Hnull & Hundef)].
  - left. edestruct Hthrows as [err ->]. eexists _, _, _. split; [reflexivity |].
    split; [by right |]. split; [reflexivity | simpl; lia].
  - right. eexists _, cadJson.
    by rewrite (run_after_response_any _ _ _ _ _ _ Hok Hjson Hnull Hundef).
Qed.

(** Every way an invocation can end. *)
Lemma invoke_cases env req w :
  (∃ resp,
     invoke Number env req w = (Returns resp, {| world := w; effects := [] |}) ∧
     (resp = {| resp_body := NoBody; resp_status := 204; resp_headers := CORS |} ∨
      resp = error_response 405 "Method Not Allowed" ∨
      resp = error_response 400 "Invalid JSON")) ∨
  (∃ cid uid err w1 l1,
     req_method req = "POST" ∧
     req_json req = Some {| conversionId := cid; userId := uid |} ∧
     invoke Number env req w =
       (Returns (failure_response err),
        if truthy cid
        then {| world := update_row (failed_patch err) cid w1;
                effects := l1 ++ [DbUpdate "cad_conversions" (failed_patch err) "id" cid] |}
        else {| world := w1; effects := l1 |}) ∧
     (w1 = w ∨ w1 = update_row generating_patch cid w) ∧
     filter is_upload l1 = [] ∧
     (length (filter is_fetch l1) ≤ 1)%nat) ∨
  (∃ cid uid payload cadJson,
     req_method req = "POST" ∧
     req_json req = Some {| conversionId := cid; userId := uid |} ∧
     invoke Number env req w =
       (Returns (success_response cid),
        {| world := finished_world env cid cadJson w;
           effects := finished_calls env cid payload cadJson |})).
Proof.
  destruct (String.eqb (req_method req) "OPTIONS") eqn:Hopt.
  { left. eexists. split; [| by left]. unfold invoke, handler. by rewrite Hopt. }
  destruct (String.eqb (req_method req) "POST") eqn:Hpost.
  2: { left. eexists. split; [| by right; left].
       unfold invoke, handler. by rewrite Hopt, Hpost. }
  apply String.eqb_eq in Hpost.
  destruct (req_json req) as [[cid uid] |] eqn:Hbody.
  2: { left. eexists. split; [| by right; right].
       unfold invoke, handler. by rewrite Hpost, Hbody. }
  right.
  destruct (protected_region_cases env cid w)
    as [(err & w1 & l1 & Hrun & Hw1 & Hup & Hfetch) | (payload & cadJson & Hrun)].
  - left. exists cid, uid, err, w1, l1. repeat split; try done.
    by apply (invoke_aborted _ _ _ uid).
  - right. exists cid, uid, payload, cadJson. repeat split; try done.
    unfold invoke. rewrite (handler_post _ _ _ _ Hpost Hbody).
    unfold try_catch. by rewrite Hrun.
Qed.

(** ** What an invocation leaves alone *)

Lemma dom_update_row patch id w :
  dom (cad_conversions (update_row patch id w)) = dom (cad_conversions w).
Proof.
  unfold update_row; simpl.
  destruct (cad_conversions w !! id) as [j |] eqn:E; [| done].
  rewrite dom_insert_L.
  apply subseteq_union_1_L, singleton_subseteq_l. by eapply elem_of_dom_2.
Qed.

Lemma lookup_update_row_ne patch id w id' :
  id' ≠ id → cad_conversions (update_row patch id w) !! id' = cad_conversions w !! id'.
Proof.
  intros Hne. unfold update_row; simpl.
  destruct (cad_conversions w !! id); [| done].
  by rewrite lookup_insert_ne.
Qed.

Lemma touches_only_refl id w : touches_only id w w.
Proof. by repeat split. Qed.

Lemma touches_only_trans id w1 w2 w3 :
  touches_only id w1 w2 → touches_only id w2 w3 → touches_only id w1 w3.
Proof.
  intros (G1 & M1 & D1 & R1 & S1 & F1 & B1) (G2 & M2 & D2 & R2 & S2 & F2 & B2).
  repeat split.
  - by rewrite G2.
  - by rewrite M2.
  - by rewrite D2.
  - intros id' Hne. by rewrite R2, R1.
  - intros id'. by rewrite S2, S1.
  - intros path H1 H2 H3. by rewrite F2, F1.
  - by etrans.
Qed.

Lemma touches_only_update_row id patch w : touches_only id w (update_row patch id w).
Proof.
  repeat split; try done.
  - apply dom_update_row.
  - intros id' Hne. by apply lookup_update_row_ne.
  - intros id'. destruct (decide (id' = id)) as [-> | Hne].
    + rewrite lookup_update_row. by destruct (cad_conversions w !! id).
    + by rewrite lookup_update_row_ne.
Qed.

Lemma upload_result_world env path content opts w :
  (upload_result env path content opts w).2 = w ∨
  (upload_result env path content opts w).2 =
    store_object path {| obj_content := content; obj_content_type := contentType opts |} w.
Proof.
  unfold upload_result.
  destruct (upload_fails env path); [by left |].
  destruct (_ && _); [by left | by right].
Qed.

Lemma touches_only_upload_result id env path content opts w :
  path = step_path id ∨ path = stl_path id ∨ path = obj_path id →
  touches_only id w (upload_result env path content opts w).2.
Proof.
  intros Hpath.
  destruct (upload_result_world env path content opts w) as [-> | ->];
    [apply touches_only_refl |].
  repeat split; try done.
  - intros path' H1 H2 H3. unfold store_object; simpl.
    apply lookup_insert_ne. destruct Hpath as [-> | [-> | ->]]; congruence.
  - unfold store_object; simpl. rewrite dom_insert_L. apply union_subseteq_r.
Qed.

Lemma touches_only_uploaded id env step_file stl_file obj_file w :
  touches_only id w (uploaded env id step_file stl_file obj_file w).
Proof.
  unfold uploaded.
  eapply touches_only_trans; [| apply touches_only_upload_result; auto].
  eapply touches_only_trans; [| apply touches_only_upload_result; auto].
  apply touches_only_upload_result; auto.
Qed.

Lemma touches_only_finished_world id env cadJson w :
  touches_only id w (finished_world env id cadJson w).
Proof.
  unfold finished_world.
  eapply touches_only_trans; [| apply touches_only_update_row].
  eapply touches_only_trans; [| apply touches_only_uploaded].
  apply touches_only_update_row.
Qed.

(** Whatever the request and however the invocation ends, the state it
    leaves differs from the one it found at most in the job row and the
    three bucket paths of the request's conversion id. *)
Lemma invoke_touches_only env req w id :
  (∀ body, req_json req = Some body → conversionId body = id) →
  touches_only id w (world (invoke Number env req w).2).
Proof.
  intros Hid.
  destruct (invoke_cases env req w)
    as [(resp & -> & _)
       | [(cid & uid & err & w1 & l1 & _ & Hb & -> & Hw1 & _)
         | (cid & uid & payload & cadJson & _ & Hb & ->)]].
  - apply touches_only_refl.
  - specialize (Hid _ Hb). simpl in Hid. subst cid.
    assert (touches_only id w w1).
    { destruct Hw1 as [-> | ->];
        [apply touches_only_refl | apply touches_only_update_row]. }
    destruct (truthy id); cbn [snd world]; [| done].
    eapply touches_only_trans; [eassumption | apply touches_only_update_row].
  - specialize (Hid _ Hb). simpl in Hid. subst cid. cbn [snd world].
    apply touches_only_finished_world.
Qed.

(** ** The storage paths *)

Lemma string_length_app (s1 s2 : string) :
  String.length (s1 +:+ s2) = (String.length s1 + String.length s2)%nat.
Proof. induction s1 as [| c s1 IH]; simpl; [done | by rewrite IH]. Qed.

Lemma string_app_inj_r (s s1 s2 : string) : s1 +:+ s = s2 +:+ s → s1 = s2.
Proof.
  revert s2. induction s1 as [| c1 s1 IH]; intros [| c2 s2] Heq.
  - done.
  - apply (f_equal String.length) in Heq.
    rewrite !string_length_app in Heq. simpl in Heq. lia.
  - apply (f_equal String.length) in Heq.
    rewrite !string_length_app in Heq. simpl in Heq. lia.
  - injection Heq as -> Heq. f_equal. by apply IH.
Qed.

Lemma step_path_inj id1 id2 : step_path id1 = step_path id2 → id1 = id2.
Proof.
  unfold step_path. intros Heq. apply String.app_inj in Heq.
  by apply string_app_inj_r in Heq.
Qed.

Lemma stl_path_inj id1 id2 : stl_path id1 = stl_path id2 → id1 = id2.
Proof.
  unfold stl_path. intros Heq. apply String.app_inj in Heq.
  by apply string_app_inj_r in Heq.
Qed.

Lemma obj_path_inj id1 id2 : obj_path id1 = obj_path id2 → id1 = id2.
Proof.
  unfold obj_path. intros Heq. apply String.app_inj in Heq.
  by apply string_app_inj_r in Heq.
Qed.

Lemma step_path_ne_stl id1 id2 : step_path id1 ≠ stl_path id2.
Proof. unfold step_path, stl_path. intros H. injection H. discriminate. Qed.

Lemma step_path_ne_obj id1 id2 : step_path id1 ≠ obj_path id2.
Proof. unfold step_path, obj_path. intros H. discriminate H. Qed.

Lemma stl_path_ne_obj id1 id2 : stl_path id1 ≠ obj_path id2.
Proof. unfold stl_path, obj_path. intros H. discriminate H. Qed.

(** ** Further lemmas on the bucket *)

Lemma upload_result_refused env path content opts w :
  upload_fails env path = true →
  upload_result env path content opts w = (Some "upload failed", w).
Proof. intros Hno. unfold upload_result. by rewrite Hno. Qed.

Lemma cad_conversions_uploaded env id step_file stl_file obj_file w :
  cad_conversions (uploaded env id step_file stl_file obj_file w) = cad_conversions w.
Proof.
  unfold uploaded.
  repeat match goal with
  | |- context [upload_result ?e ?p ?c ?o ?w0] =>
      destruct (upload_result_world e p c o w0) as [-> | ->]
  end; reflexivity.
Qed.

Lemma uploaded_refused env id step_file stl_file obj_file w :
  (∀ path, upload_fails env path = true) →
  uploaded env id step_file stl_file obj_file w = w.
Proof. intros Hno. unfold uploaded. by rewrite !upload_result_refused. Qed.

Lemma uploaded_accepted env id step_file stl_file obj_file w :
  (∀ path, upload_fails env path = false) →
  uploaded env id step_file stl_file obj_file w =
  store_object (obj_path id) (stored "model/obj" obj_file)
    (store_object (stl_path id) (stored "model/stl" stl_file)
      (store_object (step_path id) (stored "model/step" step_file) w)).
Proof. intros Hyes. unfold uploaded. by rewrite !upload_result_upsert. Qed.

Lemma job_finished_world env id cadJson w :
  cad_conversions (finished_world env id cadJson w) !! id =
  apply_patch
    (completed_patch (publicUrl env (step_path id)) (publicUrl env (stl_path id))
                     (publicUrl env (obj_path id)) (now env))
    <$> (apply_patch generating_patch <$> cad_conversions w !! id).
Proof.
  unfold finished_world.
  by rewrite lookup_update_row, cad_conversions_uploaded, lookup_update_row.
Qed.

(** The invocation of a request that passes the checks of steps 1 to 4
    and gets a 2xx answer with JSON other than [null]. *)
Lemma invoke_finishes env req cid uid w job svgUrl metalSpecs cadResp cadJson :
  req_method req = "POST" →
  req_json req = Some {| conversionId := cid; userId := uid |} →
  identifies_job env w cid job →
  vectorized_svg_url job = Some svgUrl →
  svgUrl ≠ "" →
  data (find_metal_specs env w cid) = Some metalSpecs →
  let payload := cadReq Number svgUrl cid (data (find_gemstone_specs env w cid)) metalSpecs in
  cad_service env (CAD_URL env +:+ "/convert") (cad_fetch_init payload) = inr cadResp →
  fr_ok cadResp = true →
  fr_json cadResp = inr cadJson →
  cadJson ≠ VNull → cadJson ≠ VUndefined →
  invoke Number env req w =
  (Returns (success_response cid),
   {| world := finished_world env cid cadJson w;
      effects := finished_calls env cid payload cadJson |}).
Proof.
  intros Hm Hb Hjob Hsvg Hne Hmetal payload Hcad Hok Hjson Hnull Hundef.
  apply truthy_true in Hne.
  pose proof (find_conversion_identified _ _ _ _ Hjob) as Hfind.
  unfold invoke. rewrite (handler_post _ _ _ _ Hm Hb). unfold try_catch.
  rewrite (run_until_fetch env cid w job svgUrl metalSpecs); [| by rewrite ?Hfind ..].
  fold payload. rewrite Hcad.
  by rewrite (run_after_response_any _ _ _ _ _ _ Hok Hjson Hnull Hundef).
Qed.

(** ** The further properties *)

(** X1. A request whose method is not POST is answered without any call
    to the collaborators, whatever its body: OPTIONS with 204, no body
    and the CORS headers, any other method with 405
    [{error: "Method Not Allowed"}]. *)
Theorem other_methods_touch_nothing env req w :
  req_method req ≠ "POST" →
  invoke Number env req w =
  (Returns (if String.eqb (req_method req) "OPTIONS"
            then {| resp_body := NoBody; resp_status := 204; resp_headers := CORS |}
            else {| resp_body := JSON_stringify
                      (VObject [ ("error", VString "Method Not Allowed") ]);
                    resp_status := 405;
                    resp_headers := CORS_json |}),
   {| world := w; effects := [] |}).
Proof.
  intros Hm. apply String.eqb_neq in Hm.
  unfold invoke, handler. rewrite Hm.
  by destruct (String.eqb (req_method req) "OPTIONS").
Qed.

(** Membership in an explicit list. *)
Ltac in_list :=
  first [ apply list_elem_of_here | apply list_elem_of_further; in_list ].

(** X2. Whenever the handler returns a response, its status is one of
    200, 204, 400, 405, 500 and the headers it gives to the [Response]
    constructor include the three CORS headers; with 400, 405 and 500 it
    also gives [Content-Type: application/json]; with 200 and 204 it
    gives no [Content-Type] of its own. *)
Theorem responses_are_given_cors_headers env req w resp st :
  invoke Number env req w = (Returns resp, st) →
  resp_status resp ∈ [200; 204; 400; 405; 500]%Z ∧
  ("Access-Control-Allow-Origin", "*") ∈ resp_headers resp ∧
  ("Access-Control-Allow-Headers",
   "authorization, x-client-info, apikey, content-type") ∈ resp_headers resp ∧
  ("Access-Control-Allow-Methods", "POST, OPTIONS") ∈ resp_headers resp ∧
  (resp_status resp ∈ [400; 405; 500]%Z →
   ("Content-Type", "application/json") ∈ resp_headers resp) ∧
  (resp_status resp ∈ [200; 204]%Z →
   ∀ v, ("Content-Type", v) ∉ resp_headers resp).
Proof.
  intros Hrun.
  assert (Hshape :
    resp = {| resp_body := NoBody; resp_status := 204; resp_headers := CORS |} ∨
    resp = error_response 405 "Method Not Allowed" ∨
    resp = error_response 400 "Invalid JSON" ∨
    (∃ err, resp = failure_response err) ∨
    (∃ cid, resp = success_response cid)).
  { destruct (invoke_cases env req w)
      as [(resp' & Hrun' & Hresp)
         | [(cid & uid & err & w1 & l1 & _ & _ & Hrun' & _)
           | (cid & uid & payload & cadJson & _ & _ & Hrun')]];
      rewrite Hrun' in Hrun; injection Hrun as <- _.
    - destruct Hresp as [-> | [-> | ->]]; auto.
    - right; right; right; left. by eexists.
    - right; right; right; right. by eexists. }
  assert (Hno : ∀ v : string, ("Content-Type", v) ∉ CORS).
  { intros v Hin. unfold CORS in Hin.
    repeat (apply elem_of_cons in Hin as [Hin | Hin]; [discriminate Hin |]).
    by apply elem_of_nil in Hin. }
  assert (H200 : (200 ∉ [400; 405; 500])%Z).
  { intros Hin.
    repeat (apply elem_of_cons in Hin as [Hin | Hin]; [discriminate Hin |]).
    by apply elem_of_nil in Hin. }
  assert (H204 : (204 ∉ [400; 405; 500])%Z).
  { intros Hin.
    repeat (apply elem_of_cons in Hin as [Hin | Hin]; [discriminate Hin |]).
    by apply elem_of_nil in Hin. }
  assert (Herr : ∀ code : Z, code ∈ [400; 405; 500]%Z → code ∉ [200; 204]%Z).
  { intros code Hcode Hin.
    apply elem_of_cons in Hin as [-> | Hin]; [done |].
    apply elem_of_cons in Hin as [-> | Hin]; [done |].
    by apply elem_of_nil in Hin. }
  destruct Hshape as [-> | [-> | [-> | [[err ->] | [cid ->]]]]];
    cbn [resp_status resp_headers error_response failure_response success_response];
    unfold CORS_json, CORS; cbn [app];
    (split; [in_list |]); (split; [in_list |]); (split; [in_list |]);
    (split; [in_list |]).
  - split; [by intros ?%H204 | intros _; apply Hno].
  - split; [intros _; in_list | intros Hin; exfalso; eapply Herr; [| exact Hin]; in_list].
  - split; [intros _; in_list | intros Hin; exfalso; eapply Herr; [| exact Hin]; in_list].
  - split; [intros _; in_list | intros Hin; exfalso; eapply Herr; [| exact Hin]; in_list].
  - split; [by intros ?%H200 | intros _; apply Hno].
Qed.

(** X3. A job without vector SVG URL ([null] or the empty string): the
    handler stops after the lookup, before the write that would set the
    job to generating, and answers 500 with "No vector SVG URL on
    conversion"; its only other call is the failed write, made when the
    conversion id is non-empty. *)
Theorem missing_svg_url_aborts_before_any_write env req cid uid w job :
  req_method req = "POST" →
  req_json req = Some {| conversionId := cid; userId := uid |} →
  identifies_job env w cid job →
  (vectorized_svg_url job = None ∨ vectorized_svg_url job = Some "") →
  invoke Number env req w =
  (Returns {| resp_body := JSON_stringify
                (VObject [ ("success", VBool false);
                           ("error", VString "Error: No vector SVG URL on conversion") ]);
              resp_status := 500;
              resp_headers := CORS_json |},
   if truthy cid
   then {| world := update_row (failed_patch (Error "No vector SVG URL on conversion"))
                      cid w;
           effects :=
             [ DbSelect "cad_conversions" "id" cid true;
               DbUpdate "cad_conversions"
                 (failed_patch (Error "No vector SVG URL on conversion")) "id" cid ] |}
   else {| world := w; effects := [ DbSelect "cad_conversions" "id" cid true ] |}).
Proof.
  intros Hm Hb Hjob Hsvg.
  pose proof (find_conversion_identified _ _ _ _ Hjob) as Hfind.
  rewrite (invoke_aborted env req cid uid w
             (Error "No vector SVG URL on conversion") w
             [DbSelect "cad_conversions" "id" cid true] Hm Hb).
  - by destruct (truthy cid).
  - apply (run_region_no_svg_url _ _ _ job); by rewrite ?Hfind.
Qed.

(** X4. The results of the three uploads are dropped: when the bucket
    refuses every upload, the handler still resolves the three public
    URLs, sets the job to completed with them and answers 200, while the
    bucket holds nothing new. *)
Theorem refused_uploads_go_unnoticed env req cid uid w job svgUrl metalSpecs
    cadResp cadJson :
  req_method req = "POST" →
  req_json req = Some {| conversionId := cid; userId := uid |} →
  identifies_job env w cid job →
  vectorized_svg_url job = Some svgUrl →
  svgUrl ≠ "" →
  data (find_metal_specs env w cid) = Some metalSpecs →
  cad_service env (CAD_URL env +:+ "/convert")
    (cad_fetch_init
       (cadReq Number svgUrl cid (data (find_gemstone_specs env w cid)) metalSpecs))
    = inr cadResp →
  fr_ok cadResp = true →
  fr_json cadResp = inr cadJson →
  cadJson ≠ VNull → cadJson ≠ VUndefined →
  (∀ path, upload_fails env path = true) →
  ∃ st job',
    invoke Number env req w =
      (Returns {| resp_body := JSON_stringify
                    (VObject [ ("success", VBool true);
                               ("conversionId", VString cid) ]);
                  resp_status := 200;
                  resp_headers := CORS |}, st) ∧
    length (filter is_upload (effects st)) = 3 ∧
    filter marks_failed (effects st) = [] ∧
    cad_files (world st) = cad_files w ∧
    cad_conversions (world st) !! cid = Some job' ∧
    status job' = "completed" ∧
    cad_file_url job' = Some (publicUrl env (step_path cid)) ∧
    stl_file_url job' = Some (publicUrl env (stl_path cid)) ∧
    obj_file_url job' = Some (publicUrl env (obj_path cid)).
Proof.
  intros Hm Hb Hjob Hsvg Hne Hmetal Hcad Hok Hjson Hnull Hundef Hno.
  rewrite (invoke_finishes env req cid uid w job svgUrl metalSpecs cadResp cadJson)
    by done.
  eexists _, _. split; [reflexivity |]. cbn [effects world].
  split; [reflexivity |]. split; [reflexivity |].
  split.
  { unfold finished_world. by rewrite uploaded_refused. }
  split.
  { rewrite job_finished_world. destruct Hjob as [_ ->]. reflexivity. }
  done.
Qed.

(** X5. A 2xx answer whose body cannot be read as JSON, or is the JSON
    [null]: the handler fails before the first upload, with the parse
    error or with the [TypeError] of reading [step_file] of [null]; the
    bucket is untouched, and the job is marked failed when the
    conversion id is non-empty. *)
Theorem unreadable_answer_fails_before_upload env req cid uid w job svgUrl
    metalSpecs cadResp err :
  req_method req = "POST" →
  req_json req = Some {| conversionId := cid; userId := uid |} →
  identifies_job env w cid job →
  vectorized_svg_url job = Some svgUrl →
  svgUrl ≠ "" →
  data (find_metal_specs env w cid) = Some metalSpecs →
  let payload :=
    cadReq Number svgUrl cid (data (find_gemstone_specs env w cid)) metalSpecs in
  cad_service env (CAD_URL env +:+ "/convert") (cad_fetch_init payload) = inr cadResp →
  fr_ok cadResp = true →
  (fr_json cadResp = inl err ∨
   (fr_json cadResp = inr VNull ∧
    err = {| exn_name := "TypeError";
             exn_message := "Cannot read properties of null (reading 'step_file')" |})) →
  ∃ st,
    invoke Number env req w =
      (Returns {| resp_body := JSON_stringify
                    (VObject [ ("success", VBool false);
                               ("error", VString (String_of err)) ]);
                  resp_status := 500;
                  resp_headers := CORS_json |}, st) ∧
    effects st =
      calls_until_fetch env cid payload ++
      (if truthy cid
       then [DbUpdate "cad_conversions" (failed_patch err) "id" cid]
       else []) ∧
    filter is_upload (effects st) = [] ∧
    cad_files (world st) = cad_files w ∧
    (cid ≠ "" →
     ∃ job', cad_conversions (world st) !! cid = Some job' ∧
             status job' = "failed" ∧
             error_message job' = Some (String_of err)).
Proof.
  intros Hm Hb Hjob Hsvg Hne Hmetal payload Hcad Hok Hbad.
  apply truthy_true in Hne.
  pose proof (find_conversion_identified _ _ _ _ Hjob) as Hfind.
  assert (Hrun :
    protected_region Number env cid {| world := w; effects := [] |} =
    (Throws err, {| world := update_row generating_patch cid w;
                    effects := calls_until_fetch env cid payload |})).
  { rewrite (run_until_fetch env cid w job svgUrl metalSpecs); [| by rewrite ?Hfind ..].
    fold payload. rewrite Hcad.
    destruct Hbad as [Hjson | [Hjson ->]].
    - by apply run_after_response_unreadable.
    - by apply run_after_response_null. }
  rewrite (invoke_aborted _ _ _ _ _ _ _ _ Hm Hb Hrun).
  eexists. split; [reflexivity |].
  destruct (truthy cid) eqn:Hid; cbn [effects world].
  - split; [reflexivity |]. split; [reflexivity |]. split; [reflexivity |].
    intros _. eexists. split.
    + rewrite !lookup_update_row. destruct Hjob as [_ ->]. reflexivity.
    + done.
  - split; [reflexivity |]. split; [reflexivity |]. split; [reflexivity |].
    intros Hcid. apply truthy_true in Hcid. congruence.
Qed.

(** X6. The answer of the CAD service is not validated: for any JSON
    answer other than [null] the three uploads are made with whatever
    the properties [step_file], [stl_file], [obj_file] hold, [undefined]
    when the answer has no such property, and the job is completed. *)
Theorem cad_answer_is_not_validated env req cid uid w job svgUrl metalSpecs
    cadResp cadJson :
  req_method req = "POST" →
  req_json req = Some {| conversionId := cid; userId := uid |} →
  identifies_job env w cid job →
  vectorized_svg_url job = Some svgUrl →
  svgUrl ≠ "" →
  data (find_metal_specs env w cid) = Some metalSpecs →
  cad_service env (CAD_URL env +:+ "/convert")
    (cad_fetch_init
       (cadReq Number svgUrl cid (data (find_gemstone_specs env w cid)) metalSpecs))
    = inr cadResp →
  fr_ok cadResp = true →
  fr_json cadResp = inr cadJson →
  cadJson ≠ VNull → cadJson ≠ VUndefined →
  (∀ path, upload_fails env path = false) →
  ∃ st,
    invoke Number env req w = (Returns (success_response cid), st) ∧
    cad_files (world st) !! step_path cid =
      Some (stored "model/step"
              (match cadJson with
               | VObject fields => default VUndefined (assoc "step_file" fields)
               | _ => VUndefined
               end)) ∧
    cad_files (world st) !! stl_path cid =
      Some (stored "model/stl"
              (match cadJson with
               | VObject fields => default VUndefined (assoc "stl_file" fields)
               | _ => VUndefined
               end)) ∧
    cad_files (world st) !! obj_path cid =
      Some (stored "model/obj"
              (match cadJson with
               | VObject fields => default VUndefined (assoc "obj_file" fields)
               | _ => VUndefined
               end)) ∧
    status <$> cad_conversions (world st) !! cid = Some "completed".
Proof.
  intros Hm Hb Hjob Hsvg Hne Hmetal Hcad Hok Hjson Hnull Hundef Hyes.
  rewrite (invoke_finishes env req cid uid w job svgUrl metalSpecs cadResp cadJson)
    by done.
  eexists. split; [reflexivity |]. cbn [world].
  assert (Hfiles :
    cad_files (finished_world env cid cadJson w) =
    <[obj_path cid := stored "model/obj" (property_of cadJson "obj_file")]>
      (<[stl_path cid := stored "model/stl" (property_of cadJson "stl_file")]>
        (<[step_path cid := stored "model/step" (property_of cadJson "step_file")]>
          (cad_files w)))).
  { unfold finished_world. by rewrite uploaded_accepted. }
  rewrite Hfiles. fold (property_of cadJson "step_file").
  fold (property_of cadJson "stl_file"). fold (property_of cadJson "obj_file").
  split.
  { rewrite lookup_insert_ne by (symmetry; apply step_path_ne_obj_path).
    rewrite lookup_insert_ne by (symmetry; apply step_path_ne_stl_path).
    by rewrite lookup_insert_eq. }
  split.
  { rewrite lookup_insert_ne by (symmetry; apply stl_path_ne_obj_path).
    by rewrite lookup_insert_eq. }
  split; [by rewrite lookup_insert_eq |].
  rewrite job_finished_world. destruct Hjob as [_ ->]. reflexivity.
Qed.

(** X7. Nothing is retried: an invocation calls the CAD service at most
    once. *)
Theorem at_most_one_cad_call env req w :
  (length (filter is_fetch (effects (invoke Number env req w).2)) ≤ 1)%nat.
Proof.
  destruct (invoke_cases env req w)
    as [(resp & -> & _)
       | [(cid & uid & err & w1 & l1 & _ & _ & -> & _ & _ & Hfetch)
         | (cid & uid & payload & cadJson & _ & _ & ->)]].
  - simpl. lia.
  - destruct (truthy cid); cbn [snd effects]; [| done].
    rewrite filter_app, length_app. simpl. lia.
  - simpl. lia.
Qed.

(** X8. The uploads are all or nothing: an invocation answered 200 made
    exactly three uploads; any other invocation made none and leaves
    the bucket as it found it. *)
Theorem uploads_are_all_or_nothing env req w :
  ∃ resp st,
    invoke Number env req w = (Returns resp, st) ∧
    ((resp_status resp = 200%Z ∧ length (filter is_upload (effects st)) = 3) ∨
     (resp_status resp ≠ 200%Z ∧ filter is_upload (effects st) = [] ∧
      cad_files (world st) = cad_files w)).
Proof.
  destruct (invoke_cases env req w)
    as [(resp & Hrun & [-> | [-> | ->]])
       | [(cid & uid & err & w1 & l1 & _ & _ & Hrun & Hw1 & Hup & _)
         | (cid & uid & payload & cadJson & _ & _ & Hrun)]];
    rewrite Hrun; eexists _, _; (split; [reflexivity |]).
  - by right.
  - by right.
  - by right.
  - right. split; [done |].
    destruct (truthy cid); cbn [effects world].
    + rewrite filter_app, Hup. split; [done |]. by destruct Hw1 as [-> | ->].
    + split; [done |]. by destruct Hw1 as [-> | ->].
  - by left.
Qed.

(** X9. For a POST request with a non-empty conversion id, the last call
    of the invocation is a write of the job's final status, the one
    that goes with the answer: with 200 the write of ["completed"], step
    4, the three public URLs and [completed_at]; with 500 the write of
    ["failed"], step 0 and the stringified error that the response
    carries. No invocation ends in another way. *)
Theorem invocation_ends_with_a_status_write env req cid uid w :
  req_method req = "POST" →
  req_json req = Some {| conversionId := cid; userId := uid |} →
  cid ≠ "" →
  ∃ resp st,
    invoke Number env req w = (Returns resp, st) ∧
    ((resp_status resp = 200%Z ∧
      last (effects st) =
        Some (DbUpdate "cad_conversions"
                {| set_status := Some "completed"; set_current_step := Some 4%Z;
                   set_cad_file_url :=
                     Some (publicUrl env ("step/design_" +:+ cid +:+ ".step"));
                   set_stl_file_url :=
                     Some (publicUrl env ("stl/design_" +:+ cid +:+ ".stl"));
                   set_obj_file_url :=
                     Some (publicUrl env ("obj/design_" +:+ cid +:+ ".obj"));
                   set_completed_at := Some (now env);
                   set_error_message := None |} "id" cid)) ∨
     (∃ err,
        resp_status resp = 500%Z ∧
        resp_body resp =
          JSON_stringify (VObject [ ("success", VBool false);
                                    ("error", VString (String_of err)) ]) ∧
        last (effects st) =
          Some (DbUpdate "cad_conversions"
                  {| set_status := Some "failed"; set_current_step := Some 0%Z;
                     set_cad_file_url := None; set_stl_file_url := None;
                     set_obj_file_url := None; set_completed_at := None;
                     set_error_message := Some (String_of err) |} "id" cid))).
Proof.
  intros Hm Hb Hid. apply truthy_true in Hid.
  destruct (protected_region_cases env cid w)
    as [(err & w1 & l1 & Hrun & _) | (payload & cadJson & Hrun)].
  - rewrite (invoke_aborted _ _ _ _ _ _ _ _ Hm Hb Hrun), Hid.
    eexists _, _. split; [reflexivity |]. right. exists err. cbn [effects].
    split; [done |]. split; [done |]. by rewrite last_snoc.
  - unfold invoke. rewrite (handler_post _ _ _ _ Hm Hb). unfold try_catch.
    rewrite Hrun. eexists _, _. split; [reflexivity |]. left.
    split; [done |]. reflexivity.
Qed.

(** ** What no invocation changes *)

Lemma string_longer_ne (s : string) : "x" +:+ s ≠ s.
Proof.
  intros Heq. apply (f_equal String.length) in Heq.
  rewrite string_length_app in Heq. simpl in Heq. lia.
Qed.

(** An id that is not the one of the request's body, if it has one, can
    stand for the id the invocation works on. *)
Lemma invoke_touches_only_other env req w id :
  (∀ body, req_json req = Some body → conversionId body ≠ id) →
  ∃ cid, cid ≠ id ∧ touches_only cid w (world (invoke Number env req w).2).
Proof.
  intros Hother. destruct (req_json req) as [body |] eqn:Hbody.
  - exists (conversionId body). split; [by apply Hother |].
    apply invoke_touches_only. intros body' Hbody'. congruence.
  - exists ("x" +:+ id). split; [apply string_longer_ne |].
    apply invoke_touches_only. intros body' Hbody'. congruence.
Qed.

(** X10. The handler only reads the two specification tables: after any
    invocation [gemstone_specs] and [metal_specs] are what they were. *)
Theorem spec_tables_are_read_only env req w :
  gemstone_specs (world (invoke Number env req w).2) = gemstone_specs w ∧
  metal_specs (world (invoke Number env req w).2) = metal_specs w.
Proof.
  destruct (invoke_touches_only env req w
              (from_option conversionId "" (req_json req)))
    as (Hgems & Hmetal & _).
  - intros body Hbody. by rewrite Hbody.
  - done.
Qed.

(** X11. No invocation creates or deletes a job row; the rows of other
    ids than the request's conversion id are left as they were; and no
    row, the request's included, changes its [vectorized_svg_url]. *)
Theorem job_rows_are_kept env req w :
  dom (cad_conversions (world (invoke Number env req w).2)) = dom (cad_conversions w) ∧
  (∀ id, (∀ body, req_json req = Some body → conversionId body ≠ id) →
         cad_conversions (world (invoke Number env req w).2) !! id =
         cad_conversions w !! id) ∧
  (∀ id, vectorized_svg_url <$> cad_conversions (world (invoke Number env req w).2) !! id =
         vectorized_svg_url <$> cad_conversions w !! id).
Proof.
  split; [| split].
  - destruct (invoke_touches_only env req w
                (from_option conversionId "" (req_json req)))
      as (_ & _ & Hdom & _); [| done].
    intros body Hbody. by rewrite Hbody.
  - intros id Hother.
    destruct (invoke_touches_only_other env req w id Hother)
      as (cid & Hne & _ & _ & _ & Hrows & _).
    by apply Hrows.
  - intros id.
    destruct (invoke_touches_only env req w
                (from_option conversionId "" (req_json req)))
      as (_ & _ & _ & _ & Hsvg & _); [| done].
    intros body Hbody. by rewrite Hbody.
Qed.

(** Every upload an invocation asks for is one of the three of the
    request's conversion id. *)
Lemma upload_among_calls env req w bucket path content opts :
  StorageUpload bucket path content opts ∈ effects (invoke Number env req w).2 →
  ∃ cid uid,
    req_json req = Some {| conversionId := cid; userId := uid |} ∧
    bucket = "cad-files" ∧ upsert opts = true ∧
    ((path = step_path cid ∧ contentType opts = "model/step") ∨
     (path = stl_path cid ∧ contentType opts = "model/stl") ∨
     (path = obj_path cid ∧ contentType opts = "model/obj")).
Proof.
  destruct (invoke_cases env req w)
    as [(resp & -> & _)
       | [(cid & uid & err & w1 & l1 & _ & Hb & -> & _ & Hup & _)
         | (cid & uid & payload & cadJson & _ & Hb & ->)]]; cbn [snd effects].
  - by intros ?%elem_of_nil.
  - intros Hin.
    assert (Hin1 : StorageUpload bucket path content opts ∈ l1).
    { destruct (truthy cid); cbn [effects] in Hin; [| done].
      apply elem_of_app in Hin as [Hin | Hin]; [done |].
      apply list_elem_of_singleton in Hin. discriminate Hin. }
    assert (Hin2 : StorageUpload bucket path content opts ∈ filter is_upload l1).
    { apply list_elem_of_filter. by split. }
    rewrite Hup in Hin2. by apply elem_of_nil in Hin2.
  - unfold finished_calls, calls_until_fetch, calls_after_fetch.
    intros Hin. exists cid, uid. split; [done |].
    apply elem_of_app in Hin as [Hin | Hin].
    { repeat (apply elem_of_cons in Hin as [Hin | Hin]; [discriminate Hin |]).
      by apply elem_of_nil in Hin. }
    apply elem_of_cons in Hin as [Hin | Hin].
    { injection Hin as -> -> _ ->. split; [done |]. split; [done |]. by left. }
    apply elem_of_cons in Hin as [Hin | Hin].
    { injection Hin as -> -> _ ->. split; [done |]. split; [done |].
      by right; left. }
    apply elem_of_cons in Hin as [Hin | Hin].
    { injection Hin as -> -> _ ->. split; [done |]. split; [done |].
      by right; right. }
    repeat (apply elem_of_cons in Hin as [Hin | Hin]; [discriminate Hin |]).
    by apply elem_of_nil in Hin.
Qed.

(** X12. Whatever the request and however the invocation goes, every
    upload the handler asks of the storage client is to the bucket
    [cad-files], with [upsert] on, and names one of the three path
    strings of the request's conversion id with its content type:
    [step/design_<id>.step] with [model/step], [stl/design_<id>.stl]
    with [model/stl], [obj/design_<id>.obj] with [model/obj]. *)
Theorem uploads_go_to_the_three_paths env req w bucket path content opts :
  StorageUpload bucket path content opts ∈ effects (invoke Number env req w).2 →
  ∃ cid uid,
    req_json req = Some {| conversionId := cid; userId := uid |} ∧
    bucket = "cad-files" ∧ upsert opts = true ∧
    ((path = "step/design_" +:+ cid +:+ ".step" ∧ contentType opts = "model/step") ∨
     (path = "stl/design_" +:+ cid +:+ ".stl" ∧ contentType opts = "model/stl") ∨
     (path = "obj/design_" +:+ cid +:+ ".obj" ∧ contentType opts = "model/obj")).
Proof.
  intros Hin.
  destruct (upload_among_calls _ _ _ _ _ _ _ Hin)
    as (cid & uid & Hb & Hbucket & Hupsert & Hpath).
  exists cid, uid. split; [exact Hb |]. split; [exact Hbucket |].
  split; [exact Hupsert |].
  destruct Hpath as [[-> ->] | [[-> ->] | [-> ->]]].
  - by left.
  - by right; left.
  - by right; right.
Qed.

(** X13. The path strings keep conversion ids apart: as strings, the
    three paths of one id differ from the three paths of every other
    id, also when one id is a prefix of the other; so no upload of an
    invocation names a path string of another conversion id. *)
Theorem uploads_never_name_another_conversion env req w cid uid id
    bucket path content opts :
  req_json req = Some {| conversionId := cid; userId := uid |} →
  id ≠ cid →
  StorageUpload bucket path content opts ∈ effects (invoke Number env req w).2 →
  path ≠ "step/design_" +:+ id +:+ ".step" ∧
  path ≠ "stl/design_" +:+ id +:+ ".stl" ∧
  path ≠ "obj/design_" +:+ id +:+ ".obj".
Proof.
  intros Hb Hne Hin.
  destruct (upload_among_calls _ _ _ _ _ _ _ Hin)
    as (cid' & uid' & Hb' & _ & _ & Hpath).
  rewrite Hb in Hb'. injection Hb' as <- <-.
  fold (step_path id) (stl_path id) (obj_path id).
  destruct Hpath as [[-> _] | [[-> _] | [-> _]]].
  - split; [| split].
    + intros Heq. apply step_path_inj in Heq. congruence.
    + apply step_path_ne_stl.
    + apply step_path_ne_obj.
  - split; [| split].
    + intros Heq. symmetry in Heq. by apply step_path_ne_stl in Heq.
    + intros Heq. apply stl_path_inj in Heq. congruence.
    + apply stl_path_ne_obj.
  - split; [| split].
    + intros Heq. symmetry in Heq. by apply step_path_ne_obj in Heq.
    + intros Heq. symmetry in Heq. by apply stl_path_ne_obj in Heq.
    + intros Heq. apply obj_path_inj in Heq. congruence.
Qed.

(** X14. A lookup of the job that comes back with an error is handled
    like a missing job, also when the row exists: the handler answers
    500 "Conversion not found" after that single call and, when the
    conversion id is non-empty, writes the failure, which marks the
    existing job failed. *)
Theorem lookup_error_reads_as_not_found env req cid uid w :
  req_method req = "POST" →
  req_json req = Some {| conversionId := cid; userId := uid |} →
  query_fails env "cad_conversions" = true →
  invoke Number env req w =
  (Returns {| resp_body := JSON_stringify
                (VObject [ ("success", VBool false);
                           ("error", VString "Error: Conversion not found") ]);
              resp_status := 500;
              resp_headers := CORS_json |},
   if truthy cid
   then {| world := update_row (failed_patch (Error "Conversion not found")) cid w;
           effects :=
             [ DbSelect "cad_conversions" "id" cid true;
               DbUpdate "cad_conversions"
                 (failed_patch (Error "Conversion not found")) "id" cid ] |}
   else {| world := w; effects := [ DbSelect "cad_conversions" "id" cid true ] |}).
Proof.
  intros Hm Hb Hfails.
  rewrite (invoke_aborted env req cid uid w (Error "Conversion not found") w
             [DbSelect "cad_conversions" "id" cid true] Hm Hb).
  - by destruct (truthy cid).
  - apply run_region_no_conversion. unfold find_conversion. by rewrite Hfails.
Qed.

End Runs.

(** * The properties on the scenario *)

(** The scenario of the specification, run. *)
Example scenario_runs :
  let out := invoke Scenario.Number Scenario.env Scenario.request Scenario.tables in
  out.1 = Returns (success_response "abc123") ∧
  status <$> cad_conversions (world out.2) !! "abc123" = Some "completed" ∧
  length (effects out.2) = 12.
Proof. vm_compute. done. Qed.

Lemma conversion_completes_witness :
  ∃ st job',
    invoke Scenario.Number Scenario.env Scenario.request Scenario.tables =
      (Returns (success_response "abc123"), st) ∧
    cad_conversions (world st) !! "abc123" = Some job' ∧
    status job' = "completed" ∧
    cad_file_url job' =
      Some "https://store.example/cad-files/step/design_abc123.step" ∧
    completed_at job' = Some "2024-05-01T12:00:00.000Z".
Proof.
  destruct (conversion_completes Scenario.Number Scenario.env Scenario.request
              "abc123" "u1" Scenario.tables Scenario.job "https://x/vec.svg"
              (Scenario.metal "abc123") Scenario.answer Scenario.files
              (VString "ISO-10303-21;") (VString "solid design") (VString "o design"))
    as (st & job' & Hresp & _ & _ & Hjob & Hstatus & Hurl & _ & _ & Hat & _);
    try reflexivity.
  - split; reflexivity.
  - discriminate.
  - split; reflexivity.
  - exists st, job'. repeat split; assumption.
Defined.

Lemma invalid_json_is_rejected_untouched_witness :
  invoke Scenario.Number Scenario.env Scenario.request_malformed Scenario.tables =
  (Returns {| resp_body := JSON_stringify (VObject [ ("error", VString "Invalid JSON") ]);
              resp_status := 400;
              resp_headers := CORS_json |},
   {| world := Scenario.tables; effects := [] |}).
Proof.
  apply (invalid_json_is_rejected_untouched Scenario.Number Scenario.env
           Scenario.request_malformed Scenario.tables); reflexivity.
Defined.

Lemma failure_is_recorded_once_witness :
  ∃ st,
    (invoke Scenario.Number Scenario.env Scenario.request
       Scenario.tables_without_metal).2 = st ∧
    length (filter marks_failed (effects st)) = 1 ∧
    last (effects st) =
      Some (DbUpdate "cad_conversions"
              (failed_patch (Error "Missing metal specs")) "id" "abc123").
Proof.
  destruct (failure_is_recorded_once Scenario.Number Scenario.env Scenario.request
              "abc123" "u1" Scenario.tables_without_metal
              (Error "Missing metal specs")
              {| world := update_row generating_patch "abc123"
                            Scenario.tables_without_metal;
                 effects :=
                   [ DbSelect "cad_conversions" "id" "abc123" true;
                     DbUpdate "cad_conversions" generating_patch "id" "abc123";
                     DbSelect "gemstone_specs" "conversion_id" "abc123" false;
                     DbSelect "metal_specs" "conversion_id" "abc123" true ] |})
    as (st & Hrun & Heff & _ & Hone); try reflexivity.
  exists st. rewrite Hrun. split; [reflexivity |]. split; [exact Hone |].
  rewrite Heff. reflexivity.
Defined.

Lemma unknown_job_fails_without_insert_witness :
  invoke Scenario.Number Scenario.env Scenario.request Scenario.no_tables =
  (Returns {| resp_body := JSON_stringify
                (VObject [ ("success", VBool false);
                           ("error", VString "Error: Conversion not found") ]);
              resp_status := 500;
              resp_headers := CORS_json |},
   {| world := Scenario.no_tables;
      effects :=
        [ DbSelect "cad_conversions" "id" "abc123" true;
          DbUpdate "cad_conversions"
            (failed_patch (Error "Conversion not found")) "id" "abc123" ] |}).
Proof.
  apply (unknown_job_fails_without_insert Scenario.Number Scenario.env
           Scenario.request "abc123" "u1" Scenario.no_tables); reflexivity.
Defined.

(** C7 as stated fails for the empty id: the body parses, its
    [conversionId] names no job, the handler answers 500, and the lookup
    is its only call: no write marks a job failed. *)
Lemma empty_id_unknown_job_is_not_marked :
  let out := invoke Scenario.Number Scenario.env Scenario.request_empty_id
               Scenario.no_tables in
  req_json Scenario.request_empty_id = Some {| conversionId := ""; userId := "u1" |} ∧
  cad_conversions Scenario.no_tables !! "" = None ∧
  out.1 = Returns (failure_response (Error "Conversion not found")) ∧
  effects out.2 = [ DbSelect "cad_conversions" "id" "" true ] ∧
  ¬ (∃ e, e ∈ effects out.2 ∧ marks_failed e = true).
Proof.
  vm_compute. repeat split.
  intros (e & He & Hfailed). apply list_elem_of_singleton in He. by subst e.
Qed.

Lemma missing_metal_specs_aborts_witness :
  ∃ st job',
    invoke Scenario.Number Scenario.env Scenario.request Scenario.tables_without_metal =
      (Returns (failure_response (Error "Missing metal specs")), st) ∧
    filter is_fetch (effects st) = [] ∧
    filter is_upload (effects st) = [] ∧
    cad_conversions (world st) !! "abc123" = Some job' ∧
    status job' = "failed" ∧
    error_message job' = Some "Error: Missing metal specs".
Proof.
  destruct (missing_metal_specs_aborts Scenario.Number Scenario.env Scenario.request
              "abc123" "u1" Scenario.tables_without_metal)
    as (err & st & Hrun & Hfetch & Hupload & Hmarked & Hreached); try reflexivity.
  destruct (Hreached Scenario.job "https://x/vec.svg") as [-> _];
    [split; reflexivity | reflexivity | discriminate |].
  destruct Hmarked as [_ Hjob]; [discriminate |].
  destruct (Hjob Scenario.job) as (job' & Hrow & Hstatus & _ & Hmsg); [reflexivity |].
  exists st, job'. repeat split; assumption.
Defined.

(** C3 as stated fails for a job stored under the empty id: the
    metal-spec lookup yields no row, the handler aborts, but the guard of
    the [catch] block skips the write and the job stays in
    ["generating_cad"]. *)
Lemma empty_id_missing_metal_is_not_marked :
  let out := invoke Scenario.Number Scenario.env Scenario.request_empty_id
               Scenario.tables_empty_id_without_metal in
  data (find_metal_specs Scenario.env Scenario.tables_empty_id_without_metal "") = None ∧
  out.1 = Returns (failure_response (Error "Missing metal specs")) ∧
  filter marks_failed (effects out.2) = [] ∧
  status <$> cad_conversions (world out.2) !! "" = Some "generating_cad" ∧
  status <$> cad_conversions (world out.2) !! "" ≠ Some "failed".
Proof. vm_compute. done. Qed.

Lemma cad_error_is_recorded_witness :
  ∃ st job',
    (invoke Scenario.Number Scenario.env_refusing Scenario.request Scenario.tables).2 = st ∧
    filter is_upload (effects st) = [] ∧
    cad_conversions (world st) !! "abc123" = Some job' ∧
    status job' = "failed" ∧
    error_message job' = Some "Error: CAD service error: mesh generation failed".
Proof.
  destruct (cad_error_is_recorded Scenario.Number Scenario.env_refusing
              Scenario.request "abc123" "u1" Scenario.tables Scenario.job
              "https://x/vec.svg" (Scenario.metal "abc123") Scenario.refusal)
    as (err & st & _ & Htxt & Hrun & _ & Hupload & _ & Hjob); try reflexivity.
  - split; reflexivity.
  - discriminate.
  - simpl. lia.
  - destruct Hjob as (job' & Hrow & Hstatus & Hmsg); [discriminate |].
    exists st, job'. rewrite Hrun.
    rewrite (Htxt "mesh generation failed" eq_refl) in Hmsg.
    repeat split; assumption.
Defined.

(** C4 as stated fails for a job stored under the empty id: the CAD
    service answers 500, no upload is made, but the guard of the [catch]
    block skips the write: the job stays in ["generating_cad"] and its
    [error_message] is not set. *)
Lemma empty_id_cad_error_is_not_marked :
  let out := invoke Scenario.Number Scenario.env_refusing Scenario.request_empty_id
               Scenario.tables_empty_id in
  fr_status Scenario.refusal = 500%Z ∧
  out.1 = Returns (failure_response
                     (Error "CAD service error: mesh generation failed")) ∧
  filter is_fetch (effects out.2) ≠ [] ∧
  filter marks_failed (effects out.2) = [] ∧
  status <$> cad_conversions (world out.2) !! "" = Some "generating_cad" ∧
  status <$> cad_conversions (world out.2) !! "" ≠ Some "failed" ∧
  error_message <$> cad_conversions (world out.2) !! "" = Some None.
Proof. vm_compute. done. Qed.

Lemma absent_gemstones_reach_cad_call_witness :
  ∃ st,
    invoke Scenario.Number Scenario.env Scenario.request Scenario.tables =
      (Returns (success_response "abc123"), st) ∧
    effects st !! 4%nat =
      Some (HttpFetch "https://cad.example/convert"
              (cad_fetch_init
                 (VObject [ ("svg_url", VString "https://x/vec.svg");
                            ("design_id", VString "abc123");
                            ("gemstone_specs", VArray []);
                            ("metal_specs",
                             metal_payload Scenario.Number (Scenario.metal "abc123")) ]))) ∧
    filter marks_failed (effects st) = [].
Proof.
  destruct (absent_gemstones_reach_cad_call Scenario.Number Scenario.env
              Scenario.request "abc123" "u1" Scenario.tables Scenario.job
              "https://x/vec.svg" (Scenario.metal "abc123"))
    as (resp & st & rest & Hrun & Heff & Hgoes); try reflexivity.
  - split; reflexivity.
  - discriminate.
  - right. reflexivity.
  - destruct (Hgoes Scenario.answer Scenario.files) as [-> Hnone]; try reflexivity.
    exists st. split; [exact Hrun |]. split; [| exact Hnone].
    rewrite Heff. reflexivity.
Defined.

Lemma cad_call_contract_witness :
  ∃ payload,
    payload =
      VObject
        [ ("svg_url", VString "https://x/vec.svg");
          ("design_id", VString "abc123");
          ("gemstone_specs", VArray []);
          ("metal_specs",
           VObject [ ("type", VString "yellow");
                     ("karat", VNumber "18");
                     ("weight_grams", VNumber "5.2");
                     ("tone", VString "warm") ]) ] ∧
    HttpFetch "https://cad.example/convert"
      {| fetch_method := "POST";
         fetch_headers := [ ("Content-Type", "application/json") ];
         fetch_body := JSON_stringify payload;
         fetch_timeout_ms := 300000 |}
    ∈ effects (invoke Scenario.Number Scenario.env_timing_out Scenario.request
                 Scenario.tables).2 ∧
    (invoke Scenario.Number Scenario.env_timing_out Scenario.request Scenario.tables).1 =
      Returns (failure_response Scenario.timed_out).
Proof.
  assert (Hin :
    HttpFetch "https://cad.example/convert"
      (cad_fetch_init
         (cadReq Scenario.Number "https://x/vec.svg" "abc123" (Some [])
            (Scenario.metal "abc123")))
    ∈ effects (invoke Scenario.Number Scenario.env_timing_out Scenario.request
                 Scenario.tables).2).
  { vm_compute. do 4 apply list_elem_of_further. apply list_elem_of_here. }
  destruct (cad_call_contract Scenario.Number Scenario.env_timing_out Scenario.request
              Scenario.tables _ _ Hin)
    as (cid & uid & job & svgUrl & metalSpecs & payload & Hbody & Hjob & Hsvg
        & Hmetal & _ & Hinit & Hpayload & _ & Hrejects).
  injection Hbody as <- <-.
  injection Hjob as <-. injection Hsvg as <-. injection Hmetal as <-.
  unfold cad_fetch_init in Hinit. injection Hinit as Hsame.
  exists payload. split; [exact Hpayload |].
  split; [rewrite <- Hsame; exact Hin |].
  apply Hrejects. reflexivity.
Defined.

Lemma reconversion_overwrites_witness :
  ∃ st1 st2,
    invoke Scenario.Number Scenario.env Scenario.request Scenario.tables =
      (Returns (success_response "abc123"), st1) ∧
    invoke Scenario.Number (at_time "2024-05-01T12:30:00.000Z" Scenario.env)
      Scenario.request (world st1) = (Returns (success_response "abc123"), st2) ∧
    filter is_upload (effects st2) = filter is_upload (effects st1) ∧
    cad_files (world st2) = cad_files (world st1) ∧
    size (cad_files (world st2)) = 3 ∧
    status <$> cad_conversions (world st2) !! "abc123" = Some "completed".
Proof.
  destruct (reconversion_overwrites Scenario.Number Scenario.env
              "2024-05-01T12:30:00.000Z" Scenario.request
              "abc123" "u1" Scenario.tables Scenario.job "https://x/vec.svg"
              (Scenario.metal "abc123") Scenario.answer Scenario.files
              (VString "ISO-10303-21;") (VString "solid design") (VString "o design"))
    as (st1 & st2 & job2 & Hrun1 & Hrun2 & Hup1 & Hup2 & _ & _ & Hfiles & Hjob
        & Hstatus & _);
    try reflexivity.
  - split; reflexivity.
  - discriminate.
  - split; reflexivity.
  - exists st1, st2. split; [exact Hrun1 |]. split; [exact Hrun2 |].
    split; [by rewrite Hup1, Hup2 |]. split; [exact Hfiles |].
    split; [| by rewrite Hjob, <- Hstatus].
    rewrite Hfiles.
    assert (Hst1 : st1 = (invoke Scenario.Number Scenario.env Scenario.request
                            Scenario.tables).2) by (by rewrite Hrun1).
    rewrite Hst1. reflexivity.
Defined.

(** * The further properties on the scenario *)

Lemma other_methods_touch_nothing_witness :
  invoke Scenario.Number Scenario.env Scenario.request_get Scenario.tables =
  (Returns (error_response 405 "Method Not Allowed"),
   {| world := Scenario.tables; effects := [] |}).
Proof.
  apply (other_methods_touch_nothing Scenario.Number Scenario.env
           Scenario.request_get Scenario.tables).
  discriminate.
Defined.

Lemma missing_svg_url_aborts_before_any_write_witness :
  ∃ st,
    invoke Scenario.Number Scenario.env Scenario.request Scenario.tables_without_svg =
      (Returns (failure_response (Error "No vector SVG URL on conversion")), st) ∧
    length (effects st) = 2 ∧
    status <$> cad_conversions (world st) !! "abc123" = Some "failed".
Proof.
  rewrite (missing_svg_url_aborts_before_any_write Scenario.Number Scenario.env
             Scenario.request "abc123" "u1" Scenario.tables_without_svg
             Scenario.job_without_svg).
  - eexists. split; [reflexivity |]. split; reflexivity.
  - reflexivity.
  - reflexivity.
  - split; reflexivity.
  - left. reflexivity.
Defined.

Lemma refused_uploads_go_unnoticed_witness :
  ∃ st job',
    invoke Scenario.Number Scenario.env_bucket_refusing Scenario.request Scenario.tables =
      (Returns (success_response "abc123"), st) ∧
    cad_files (world st) = ∅ ∧
    cad_conversions (world st) !! "abc123" = Some job' ∧
    status job' = "completed" ∧
    cad_file_url job' =
      Some "https://store.example/cad-files/step/design_abc123.step".
Proof.
  destruct (refused_uploads_go_unnoticed Scenario.Number Scenario.env_bucket_refusing
              Scenario.request "abc123" "u1" Scenario.tables Scenario.job
              "https://x/vec.svg" (Scenario.metal "abc123") Scenario.answer
              (VObject Scenario.files))
    as (st & job' & Hrun & _ & _ & Hfiles & Hjob & Hstatus & Hurl & _);
    try reflexivity; try discriminate.
  - split; reflexivity.
  - exists st, job'. repeat split; assumption.
Defined.

Lemma unreadable_answer_fails_before_upload_witness :
  ∃ st,
    invoke Scenario.Number (Scenario.env_answering Scenario.answer_null)
      Scenario.request Scenario.tables =
      (Returns (failure_response (null_property_error "step_file")), st) ∧
    filter is_upload (effects st) = [] ∧
    cad_files (world st) = ∅.
Proof.
  destruct (unreadable_answer_fails_before_upload Scenario.Number
              (Scenario.env_answering Scenario.answer_null)
              Scenario.request "abc123" "u1" Scenario.tables Scenario.job
              "https://x/vec.svg" (Scenario.metal "abc123") Scenario.answer_null
              (null_property_error "step_file"))
    as (st & Hrun & _ & Hupload & Hfiles & _);
    try reflexivity; try discriminate.
  - split; reflexivity.
  - right. split; reflexivity.
  - exists st. repeat split; assumption.
Defined.

Lemma cad_answer_is_not_validated_witness :
  ∃ st,
    invoke Scenario.Number (Scenario.env_answering Scenario.answer_empty)
      Scenario.request Scenario.tables =
      (Returns (success_response "abc123"), st) ∧
    cad_files (world st) !! "step/design_abc123.step" =
      Some (stored "model/step" VUndefined) ∧
    status <$> cad_conversions (world st) !! "abc123" = Some "completed".
Proof.
  destruct (cad_answer_is_not_validated Scenario.Number
              (Scenario.env_answering Scenario.answer_empty)
              Scenario.request "abc123" "u1" Scenario.tables Scenario.job
              "https://x/vec.svg" (Scenario.metal "abc123") Scenario.answer_empty
              (VObject []))
    as (st & Hrun & Hstep & _ & _ & Hstatus);
    try reflexivity; try discriminate.
  - split; reflexivity.
  - exists st. repeat split; assumption.
Defined.

Lemma job_rows_are_kept_witness :
  cad_conversions
    (world (invoke Scenario.Number Scenario.env Scenario.request
              Scenario.tables_with_other).2) !! "abc12" = Some Scenario.job.
Proof.
  destruct (job_rows_are_kept Scenario.Number Scenario.env Scenario.request
              Scenario.tables_with_other) as (_ & Hrows & _).
  rewrite (Hrows "abc12"); [reflexivity |].
  intros body [= <-]. discriminate.
Defined.

Lemma lookup_error_reads_as_not_found_witness :
  ∃ st,
    invoke Scenario.Number Scenario.env_lookup_failing Scenario.request Scenario.tables =
      (Returns (failure_response (Error "Conversion not found")), st) ∧
    status <$> cad_conversions (world st) !! "abc123" = Some "failed".
Proof.
  rewrite (lookup_error_reads_as_not_found Scenario.Number Scenario.env_lookup_failing
             Scenario.request "abc123" "u1" Scenario.tables); try reflexivity.
  eexists. split; reflexivity.
Defined.

Lemma responses_are_given_cors_headers_witness :
  ∃ resp st,
    invoke Scenario.Number Scenario.env Scenario.request Scenario.tables =
      (Returns resp, st) ∧
    resp_status resp = 200%Z ∧
    ("Access-Control-Allow-Origin", "*") ∈ resp_headers resp ∧
    ∀ v, ("Content-Type", v) ∉ resp_headers resp.
Proof.
  exists (success_response "abc123"),
    (invoke Scenario.Number Scenario.env Scenario.request Scenario.tables).2.
  destruct (responses_are_given_cors_headers Scenario.Number Scenario.env
              Scenario.request Scenario.tables (success_response "abc123")
              (invoke Scenario.Number Scenario.env Scenario.request Scenario.tables).2)
    as (_ & Horigin & _ & _ & _ & Hnone).
  - reflexivity.
  - split; [reflexivity |]. split; [reflexivity |]. split; [exact Horigin |].
    apply Hnone. simpl. apply list_elem_of_here.
Defined.

Lemma invocation_ends_with_a_status_write_witness :
  ∃ resp st,
    invoke Scenario.Number Scenario.env_refusing Scenario.request Scenario.tables =
      (Returns resp, st) ∧
    resp_status resp = 500%Z ∧
    marks_failed <$> last (effects st) = Some true.
Proof.
  destruct (invocation_ends_with_a_status_write Scenario.Number Scenario.env_refusing
              Scenario.request "abc123" "u1" Scenario.tables)
    as (resp & st & Hrun & Hends); try reflexivity; try discriminate.
  exists resp, st. split; [exact Hrun |].
  destruct Hends as [[H200 _] | (err & H500 & _ & Hlast)].
  - assert (Hact :
      (invoke Scenario.Number Scenario.env_refusing Scenario.request
         Scenario.tables).1 =
      Returns (failure_response (Error "CAD service error: mesh generation failed")))
      by reflexivity.
    rewrite Hrun in Hact. injection Hact as ->. discriminate H200.
  - split; [exact H500 |]. rewrite Hlast. reflexivity.
Defined.

Lemma uploads_go_to_the_three_paths_witness :
  ∃ cid uid,
    req_json Scenario.request = Some {| conversionId := cid; userId := uid |} ∧
    "stl/design_abc123.stl" = "stl/design_" +:+ cid +:+ ".stl".
Proof.
  assert (Hin :
    StorageUpload "cad-files" "stl/design_abc123.stl"
      {| blob_parts := [VString "solid design"] |}
      {| contentType := "model/stl"; upsert := true |}
    ∈ effects (invoke Scenario.Number Scenario.env Scenario.request Scenario.tables).2).
  { vm_compute. do 6 apply list_elem_of_further. apply list_elem_of_here. }
  destruct (uploads_go_to_the_three_paths Scenario.Number Scenario.env Scenario.request
              Scenario.tables _ _ _ _ Hin)
    as (cid & uid & Hb & _ & _ & [[Hpath _] | [[Hpath _] | [Hpath _]]]).
  - discriminate Hpath.
  - by exists cid, uid.
  - discriminate Hpath.
Defined.

Lemma uploads_never_name_another_conversion_witness :
  "step/design_abc123.step" ≠ "step/design_" +:+ "abc12" +:+ ".step".
Proof.
  assert (Hin :
    StorageUpload "cad-files" "step/design_abc123.step"
      {| blob_parts := [VString "ISO-10303-21;"] |}
      {| contentType := "model/step"; upsert := true |}
    ∈ effects (invoke Scenario.Number Scenario.env Scenario.request
                 Scenario.tables_with_other).2).
  { vm_compute. do 5 apply list_elem_of_further. apply list_elem_of_here. }
  destruct (uploads_never_name_another_conversion Scenario.Number Scenario.env
              Scenario.request Scenario.tables_with_other "abc123" "u1" "abc12"
              _ _ _ _ eq_refl ltac:(discriminate) Hin) as (Hstep & _).
  exact Hstep.
Defined.
